(** * Real-Time Height Measurement System: the browser client and the
      calibration estimator, embedded in Rocq.

    The development follows the source files:
    - [Js]: the few JavaScript built-ins the client relies on
      (truthiness, [||], [String.prototype.split], [JSON.stringify] of a
      flat object, [Number.prototype.toFixed], base64 data URLs);
    - [CalibrationEstimator]: the 40-sample trimmed-mean calibration;
    - [CameraComponent] and [App]: the React state of the two stateful
      components and their event handlers, as state transformers;
    - [HeightDisplay] and [CalibrationComponent]: the render functions;
    - [ControlPanel]: the two status cells;
    - [CameraLifecycle] and [Wired]: the timers, the media streams, the
      connection handlers and the rendering of the camera component,
      and the events of the page.

    JavaScript numbers that travel in JSON are finite doubles; they are
    modelled as rationals ([Q]).  The client only moves them around and
    compares them with constants, which is exact on doubles. *)

From Stdlib Require Import String Ascii List Bool Arith ZArith QArith Qabs Qround Lia.
From Stdlib Require Import DecimalString.
From Stdlib Require Import Sorting.Permutation Sorting.Mergesort Orders.
Import ListNotations.

Local Close Scope Q_scope.
Local Open Scope string_scope.

(* ===================================================================== *)
(** ** JavaScript built-ins used by the client *)
(* ===================================================================== *)

Module Js.

(** A JavaScript number (finite, as JSON carries them). *)
Definition number := Q.

(** Truthiness of a possibly absent string: [undefined], [null] and the
    empty string are falsy. *)
Definition truthy_string (v : option string) : bool :=
  match v with
  | None => false
  | Some s => negb (String.eqb s "")
  end.

(** Truthiness of a possibly absent number: [undefined] and [0] are falsy. *)
Definition truthy_number (v : option number) : bool :=
  match v with
  | None => false
  | Some q => negb (Qeq_bool q 0%Q)
  end.

(** [v || d] on a possibly absent number. *)
Definition or_number (v : option number) (d : number) : number :=
  match v with
  | Some q => if truthy_number v then q else d
  | None => d
  end.

(** [a < b] and [a > b] on numbers. *)
Definition lt (a b : number) : bool := negb (Qle_bool b a).
Definition gt (a b : number) : bool := negb (Qle_bool a b).

(** The double-quote character, code 34. *)
Definition dquote : ascii := ascii_of_nat 34.
Definition backslash : ascii := ascii_of_nat 92.

Definition hex_digit (n : nat) : ascii :=
  nth n (list_ascii_of_string "0123456789abcdef") "0"%char.

(** [QuoteJSONString] on one character: the two-character escapes, the
    [\u00XX] form for the other control characters, the character itself
    otherwise. *)
Definition escape_char (c : ascii) : string :=
  let n := nat_of_ascii c in
  if Ascii.eqb c dquote then String backslash (String dquote "")
  else if Ascii.eqb c backslash then String backslash (String backslash "")
  else if (n =? 8)%nat then String backslash "b"
  else if (n =? 9)%nat then String backslash "t"
  else if (n =? 10)%nat then String backslash "n"
  else if (n =? 12)%nat then String backslash "f"
  else if (n =? 13)%nat then String backslash "r"
  else if (n <? 32)%nat then
    String backslash ("u00" ++ String (hex_digit (n / 16)) (String (hex_digit (n mod 16)) ""))
  else String c "".

Fixpoint escape (s : string) : string :=
  match s with
  | EmptyString => ""
  | String c s' => escape_char c ++ escape s'
  end.

Definition quote (s : string) : string :=
  String dquote (escape s ++ String dquote "").

(** The members of an object literal whose values are strings or
    [undefined]; [JSON.stringify] leaves the undefined ones out. *)
Fixpoint members (fields : list (string * option string)) : list string :=
  match fields with
  | [] => []
  | (k, Some v) :: rest => (quote k ++ ":" ++ quote v) :: members rest
  | (_, None) :: rest => members rest
  end.

Definition JSON_stringify (fields : list (string * option string)) : string :=
  "{" ++ String.concat "," (members fields) ++ "}".

(** [s.split(sep)] for a one-character separator. *)
Fixpoint split (sep : ascii) (s : string) : list string :=
  match s with
  | EmptyString => [""]
  | String c s' =>
      if Ascii.eqb c sep then "" :: split sep s'
      else match split sep s' with
           | [] => [String c ""]
           | h :: t => String c h :: t
           end
  end.

(** Base64 (RFC 4648, with padding), as [toDataURL] produces it. *)
Definition base64_alphabet : list ascii :=
  list_ascii_of_string
    "ABCDEFGHIJKLMNOPQRSTUVWXYZabcdefghijklmnopqrstuvwxyz0123456789+/".

Definition base64_char (n : N) : ascii :=
  nth (N.to_nat (n mod 64)) base64_alphabet "A"%char.

Fixpoint base64 (bytes : list Byte.byte) : string :=
  match bytes with
  | [] => ""
  | [b0] =>
      let n := (Byte.to_N b0 * 65536)%N in
      String (base64_char (n / 262144))
        (String (base64_char (n / 4096)) "==")
  | [b0; b1] =>
      let n := (Byte.to_N b0 * 65536 + Byte.to_N b1 * 256)%N in
      String (base64_char (n / 262144))
        (String (base64_char (n / 4096))
           (String (base64_char (n / 64)) "="))
  | b0 :: b1 :: b2 :: rest =>
      let n := (Byte.to_N b0 * 65536 + Byte.to_N b1 * 256 + Byte.to_N b2)%N in
      String (base64_char (n / 262144))
        (String (base64_char (n / 4096))
           (String (base64_char (n / 64))
              (String (base64_char n) (base64 rest))))
  end.

(** [x.toFixed(digits)] for [|x| < 10^21]: the sign, then the integer
    [n] closest to [|x| * 10^digits] (the larger one on a tie), written
    with [digits] decimals. *)
Definition pad_zeros (width : nat) (s : string) : string :=
  String.concat "" (repeat "0" (width - String.length s)) ++ s.

Definition toFixed (x : number) (digits : nat) : string :=
  let negative := lt x 0%Q in
  let scaled := (Qabs x * inject_Z (10 ^ Z.of_nat digits))%Q in
  let n := Qfloor (scaled + (1 # 2))%Q in
  let ds := pad_zeros (S digits) (NilZero.string_of_uint (N.to_uint (Z.to_N n))) in
  let k := String.length ds - digits in
  (if negative then "-" else "")
    ++ substring 0 k ds
    ++ (if (digits =? 0)%nat then "" else "." ++ substring k digits ds).

End Js.

Local Open Scope list_scope.
Local Open Scope nat_scope.

(* ===================================================================== *)
(** ** Calibration Estimator *)
(* ===================================================================== *)

(** Sorting torso samples by pixel length. *)
Module SampleOrder <: TotalLeBool.
Definition t := Q.
Definition leb (x y : Q) : bool := Qle_bool x y.
Theorem leb_total : forall x y, leb x y = true \/ leb y x = true.
Proof.
  intros x y. unfold leb. rewrite !Qle_bool_iff.
  destruct (Qlt_le_dec x y) as [H | H]; [left; apply Qlt_le_weak, H | right; exact H].
Qed.
End SampleOrder.

Module SampleSort := Sort SampleOrder.

Module CalibrationEstimator.

(** Modelled from the spec: the calibration estimator runs in the Python
    backend, which is not among the source files; the definitions below
    follow section 4.2 of the specification word for word (reference
    torso length 50 cm, 40 samples, 10% trimmed from each tail of the
    sorted samples, mean of the rest, degenerate mean discarded). *)
Inductive CalibrationState :=
| Uncalibrated (samples : list Q)
| Calibrated (scale_cm_per_px : Q).

Definition REFERENCE_TORSO_CM : Q := 50%Q.
Definition TARGET_SAMPLES : nat := 40.
Definition TRIM_PERCENT : nat := 10.

Definition initial : CalibrationState := Uncalibrated [].

Definition sum (l : list Q) : Q := fold_right Qplus 0%Q l.

Definition mean (l : list Q) : Q :=
  (sum l / inject_Z (Z.of_nat (length l)))%Q.

(** Discard [TRIM_PERCENT] of the samples from each tail. *)
Definition trim (sorted : list Q) : list Q :=
  let k := length sorted * TRIM_PERCENT / 100 in
  firstn (length sorted - 2 * k) (skipn k sorted).

Definition trimmed_mean (samples : list Q) : Q :=
  mean (trim (SampleSort.sort samples)).

(** Modelled from the spec: what happens when the buffer is full. *)
Definition calibrate (samples : list Q) : CalibrationState :=
  let torso_px := trimmed_mean samples in
  if Qle_bool torso_px 0%Q then Uncalibrated []
  else Calibrated (REFERENCE_TORSO_CM / torso_px)%Q.

(** Modelled from the spec: one torso-length sample of a frame with both
    midpoints visible. *)
Definition feed (st : CalibrationState) (sample : Q) : CalibrationState :=
  match st with
  | Calibrated scale => Calibrated scale
  | Uncalibrated samples =>
      let samples' := samples ++ [sample] in
      if TARGET_SAMPLES <=? length samples' then calibrate samples'
      else Uncalibrated samples'
  end.

Definition feed_all (st : CalibrationState) (samples : list Q) : CalibrationState :=
  fold_left feed samples st.

(** Modelled from the spec: [floor(100 * samples_collected / 40)]. *)
Definition progress (st : CalibrationState) : nat :=
  match st with
  | Uncalibrated samples => 100 * length samples / TARGET_SAMPLES
  | Calibrated _ => 100
  end.

(** Modelled from the spec: the reset command. *)
Definition reset (st : CalibrationState) : CalibrationState := Uncalibrated [].

(** The synthetic samples 1, 2, ..., n. *)
Definition synthetic (n : nat) : list Q :=
  map (fun i => inject_Z (Z.of_nat i)) (seq 1 n).

End CalibrationEstimator.

(* ===================================================================== *)
(** ** Data exchanged with the server *)
(* ===================================================================== *)

(** [interface HeightData] of App.tsx and HeightDisplay. *)
Record HeightData := mkHeightData {
  height_cm : Js.number;
  height_feet_inches : string;
  confidence : Js.number;
  method : option string
}.

(** The object [JSON.parse(event.data)] yields, read through the four
    properties the handler looks at; an absent property is [None]. *)
Record ServerMessage := mkServerMessage {
  type : string;
  image : option string;
  progress : option Js.number;
  height : option HeightData
}.

(* ===================================================================== *)
(** ** Event handlers over a parent and a child component *)
(* ===================================================================== *)

(** A handler of the child runs setters of its own state and callbacks
    received as props, which set the state of the parent.  None of the
    handlers reads a state variable it has set, so the batched updates of
    one event amount to running the setters in order. *)
Module React.

Section Handlers.
Context {P C : Type}.

Definition Handler : Type := P * C -> P * C.

Definition skip : Handler := fun w => w.

(** A callback prop. *)
Definition parent (f : P -> P) : Handler := fun w => (f (fst w), snd w).

(** A setter of the component itself. *)
Definition self (f : C -> C) : Handler := fun w => (fst w, f (snd w)).

Definition andThen (f g : Handler) : Handler := fun w => g (f w).

Definition when (b : bool) (f : Handler) : Handler := if b then f else skip.

End Handlers.

Notation "f ;; g" := (andThen f g) (at level 61, right associativity).

End React.

Import React.

(* ===================================================================== *)
(** ** CameraComponent *)
(* ===================================================================== *)

Module CameraComponent.

Inductive ReadyState := CONNECTING | OPEN | CLOSING | CLOSED.

Definition ReadyState_eqb (a b : ReadyState) : bool :=
  match a, b with
  | CONNECTING, CONNECTING | OPEN, OPEN | CLOSING, CLOSING | CLOSED, CLOSED => true
  | _, _ => false
  end.

(** The session socket: its ready state and what has been handed to
    [send], oldest first. *)
Record WebSocket := mkWebSocket {
  readyState : ReadyState;
  sent : list string
}.

Definition send (data : string) (ws : WebSocket) : WebSocket :=
  {| readyState := readyState ws; sent := sent ws ++ [data] |}.

(** The pixels of a video frame, left abstract. *)
Definition Frame := list Byte.byte.

Record Video := mkVideo {
  paused : bool;
  ended : bool;
  videoWidth : nat;
  videoHeight : nat;
  currentFrame : Frame
}.

Definition play (v : Video) : Video :=
  {| paused := false; ended := false;
     videoWidth := videoWidth v; videoHeight := videoHeight v;
     currentFrame := currentFrame v |}.

(** The [useState] variables of the component. *)
Record State := mkState {
  isConnected : bool;
  isDetecting : bool;
  processedImage : option string;
  error : option string;
  calibrationProgress : option Js.number;
  hasInteracted : bool
}.

(** A mounted component: its state and its two refs. *)
Record Instance := mkInstance {
  state : State;
  wsRef : option WebSocket;
  videoRef : option Video
}.

Definition initialState : State :=
  {| isConnected := false; isDetecting := false; processedImage := None;
     error := None; calibrationProgress := None; hasInteracted := false |}.

Definition withState (f : State -> State) (i : Instance) : Instance :=
  {| state := f (state i); wsRef := wsRef i; videoRef := videoRef i |}.

Definition withWs (ws : option WebSocket) (i : Instance) : Instance :=
  {| state := state i; wsRef := ws; videoRef := videoRef i |}.

Definition withVideo (v : option Video) (i : Instance) : Instance :=
  {| state := state i; wsRef := wsRef i; videoRef := v |}.

Definition setIsConnected (b : bool) : Instance -> Instance :=
  withState (fun s =>
    {| isConnected := b; isDetecting := isDetecting s;
       processedImage := processedImage s; error := error s;
       calibrationProgress := calibrationProgress s;
       hasInteracted := hasInteracted s |}).

Definition setIsDetecting (b : bool) : Instance -> Instance :=
  withState (fun s =>
    {| isConnected := isConnected s; isDetecting := b;
       processedImage := processedImage s; error := error s;
       calibrationProgress := calibrationProgress s;
       hasInteracted := hasInteracted s |}).

Definition setProcessedImage (v : option string) : Instance -> Instance :=
  withState (fun s =>
    {| isConnected := isConnected s; isDetecting := isDetecting s;
       processedImage := v; error := error s;
       calibrationProgress := calibrationProgress s;
       hasInteracted := hasInteracted s |}).

Definition setError (v : option string) : Instance -> Instance :=
  withState (fun s =>
    {| isConnected := isConnected s; isDetecting := isDetecting s;
       processedImage := processedImage s; error := v;
       calibrationProgress := calibrationProgress s;
       hasInteracted := hasInteracted s |}).

Definition setCalibrationProgress (v : option Js.number) : Instance -> Instance :=
  withState (fun s =>
    {| isConnected := isConnected s; isDetecting := isDetecting s;
       processedImage := processedImage s; error := error s;
       calibrationProgress := v;
       hasInteracted := hasInteracted s |}).

Definition isOpen (ws : option WebSocket) : bool :=
  match ws with
  | Some s => ReadyState_eqb (readyState s) OPEN
  | None => false
  end.

Section Browser.

(** The JPEG encoder behind [canvas.toDataURL('image/jpeg', quality)]. *)
Variable encodeJpeg : Frame -> Js.number -> list Byte.byte.

Definition toDataURL (canvas : Frame) (quality : Js.number) : string :=
  ("data:image/jpeg;base64," ++ Js.base64 (encodeJpeg canvas quality))%string.

(** [captureFrame]; [ctx] tells whether [canvas.getContext('2d')] gave a
    drawing context. *)
Definition captureFrame (ctx : bool) (i : Instance) : Instance :=
  match videoRef i, wsRef i with
  | Some video, Some ws =>
      if negb (isOpen (Some ws)) then i
      else
        let video := if paused video || ended video then play video else video in
        let i := withVideo (Some video) i in
        if (0 <? videoWidth video) && (0 <? videoHeight video) then
          if ctx then
            let canvas := currentFrame video in
            let base64Data := nth_error (Js.split "," (toDataURL canvas 0.8%Q)) 1 in
            withWs (Some (send (Js.JSON_stringify
                                  [("type", Some "image"); ("data", base64Data)]) ws)) i
          else i
        else i
  | _, _ => i
  end.

End Browser.

Section Props.
Context {P : Type}.
Variable onHeightUpdate : option HeightData -> P -> P.
Variable onDetectionToggle : bool -> P -> P.
Variable onCameraError : string -> P -> P.

(** [ws.onmessage], after [JSON.parse]: first the line that shows the
    annotated frame, then the [switch] on the message type. *)
Definition onmessage_image (data : ServerMessage) : @Handler P Instance :=
  when (Js.truthy_string (image data))
    (self (setProcessedImage
             (Some ("data:image/jpeg;base64," ++ match image data with
                                                  | Some s => s
                                                  | None => ""
                                                  end)%string))).

Definition onmessage_switch (data : ServerMessage) : @Handler P Instance :=
  if String.eqb (type data) "calibrating" then
    self (setCalibrationProgress (Some (Js.or_number (progress data) 0%Q))) ;;
    parent (onHeightUpdate None) ;;
    parent (onDetectionToggle false) ;;
    self (setIsDetecting false)
  else if String.eqb (type data) "height_update" then
    self (setCalibrationProgress None) ;;
    parent (onHeightUpdate (height data)) ;;
    parent (onDetectionToggle true) ;;
    self (setIsDetecting true)
  else if String.eqb (type data) "info" || String.eqb (type data) "no_person" then
    parent (onHeightUpdate None) ;;
    parent (onDetectionToggle false) ;;
    self (setIsDetecting false)
  else if String.eqb (type data) "reset_ack" then
    self (setCalibrationProgress (Some 0%Q))
  else skip.

Definition onmessage (data : ServerMessage) : @Handler P Instance :=
  onmessage_image data ;; onmessage_switch data.

(** [ws.onerror] (the capture timer it stops is not modelled). *)
Definition onerror : @Handler P Instance :=
  self (setError (Some "Connection to server failed.")) ;;
  parent (onCameraError "Connection to server failed.").

End Props.

(** [resetSystem], the one method of the imperative handle. *)
Definition resetSystem (i : Instance) : Instance :=
  let i :=
    match wsRef i with
    | Some ws =>
        if isOpen (Some ws)
        then withWs (Some (send (Js.JSON_stringify [("type", Some "reset")]) ws)) i
        else i
    | None => i
    end in
  setCalibrationProgress (Some 0%Q) (setProcessedImage None i).

End CameraComponent.

(* ===================================================================== *)
(** ** App *)
(* ===================================================================== *)

Module App.

(** The [useState] variables of [App], and whether [cameraRef.current]
    holds the handle of the camera component. *)
Record State := mkState {
  isCalibrated : bool;
  heightData : option HeightData;
  isDetecting : bool;
  cameraError : option string;
  cameraRef : bool
}.

Definition initialState : State :=
  {| isCalibrated := false; heightData := None; isDetecting := false;
     cameraError := None; cameraRef := false |}.

Definition setIsCalibrated (b : bool) (s : State) : State :=
  {| isCalibrated := b; heightData := heightData s;
     isDetecting := isDetecting s; cameraError := cameraError s;
     cameraRef := cameraRef s |}.

Definition setHeightData (d : option HeightData) (s : State) : State :=
  {| isCalibrated := isCalibrated s; heightData := d;
     isDetecting := isDetecting s; cameraError := cameraError s;
     cameraRef := cameraRef s |}.

Definition setIsDetecting (b : bool) (s : State) : State :=
  {| isCalibrated := isCalibrated s; heightData := heightData s;
     isDetecting := b; cameraError := cameraError s;
     cameraRef := cameraRef s |}.

Definition setCameraError (e : option string) (s : State) : State :=
  {| isCalibrated := isCalibrated s; heightData := heightData s;
     isDetecting := isDetecting s; cameraError := e;
     cameraRef := cameraRef s |}.

Definition handleCalibrationComplete (s : State) : State :=
  setIsCalibrated true s.

(** [data && data.height_cm > 0] *)
Definition positiveHeight (data : option HeightData) : bool :=
  match data with
  | Some d => Js.gt (height_cm d) 0%Q
  | None => false
  end.

Definition handleHeightUpdate (data : option HeightData) (s : State) : State :=
  let s := setHeightData data s in
  if positiveHeight data then setIsCalibrated true s else s.

Definition handleDetectionToggle (detecting : bool) (s : State) : State :=
  setIsDetecting detecting s.

Definition handleCameraError (e : string) (s : State) : State :=
  setCameraError (Some e) s.

(** The page: the state of [App] and the camera component it renders. *)
Definition Client : Type := State * CameraComponent.Instance.

Definition handleReset : Client -> Client :=
  parent (setIsCalibrated false) ;;
  parent (setHeightData None) ;;
  parent (setIsDetecting false) ;;
  parent (setCameraError None) ;;
  fun c => when (cameraRef (fst c)) (self CameraComponent.resetSystem) c.

(** The socket's message handler with the callbacks [App] passes as
    props. *)
Definition onmessage (data : ServerMessage) : Client -> Client :=
  CameraComponent.onmessage handleHeightUpdate handleDetectionToggle data.

Definition onerror : Client -> Client :=
  CameraComponent.onerror handleCameraError.

(** A run of inbound messages, oldest first. *)
Definition receive (msgs : list ServerMessage) (c : Client) : Client :=
  fold_left (fun c m => onmessage m c) msgs c.

(** What the user and the server can do to the page. *)
Inductive Event :=
| Message (data : ServerMessage)
| ClickReset.

Definition step (e : Event) (c : Client) : Client :=
  match e with
  | Message data => onmessage data c
  | ClickReset => handleReset c
  end.

Definition run (es : list Event) (c : Client) : Client :=
  fold_left (fun c e => step e c) es c.

End App.

(* ===================================================================== *)
(** ** HeightDisplay *)
(* ===================================================================== *)

Module HeightDisplay.

Record Props := mkProps {
  heightData : option HeightData;
  isDetecting : bool;
  isCalibrated : bool
}.

Inductive StatusType := info | warning | error.

Record Status := mkStatus {
  statusType : StatusType;
  message : string
}.

Definition getStatusMessage (p : Props) : option Status :=
  if negb (isCalibrated p) then
    Some {| statusType := info;
            message := "System will auto-calibrate when you stand in front of the camera with full body visible." |}
  else if negb (isDetecting p) then
    Some {| statusType := info;
            message := "Stand in front of the camera to measure your height." |}
  else
    match heightData p with
    | Some d =>
        if Js.lt (confidence d) 0.5%Q then
          Some {| statusType := warning;
                  message := "Low confidence detection. Try standing straight and ensure good lighting." |}
        else None
    | None => None
    end.

(** The measurement block: the texts shown and the [confidence] prop of
    the bar, whose marker stands at [confidence * 100] percent. *)
Record Reading := mkReading {
  heightValue : string;
  centimeters : string;
  feetInches : string;
  confidenceBarFill : Js.number;
  confidenceValue : string;
  systemLine : string
}.

Inductive Body :=
| Measured (r : Reading)
| Placeholder (text : string).

Record View := mkView {
  body : Body;
  statusMessage : option Status
}.

Definition markerLeftPercent (r : Reading) : Js.number :=
  (confidenceBarFill r * 100)%Q.

Definition render (p : Props) : View :=
  {| body :=
       match heightData p with
       | Some d =>
           if isDetecting p then
             Measured
               {| heightValue := (Js.toFixed (height_cm d) 1 ++ " cm")%string;
                  centimeters := Js.toFixed (height_cm d) 1;
                  feetInches := height_feet_inches d;
                  confidenceBarFill := (confidence d / 100)%Q;
                  confidenceValue := (Js.toFixed (confidence d) 0 ++ "%")%string;
                  systemLine :=
                    ("System: Advanced Holistic Detection with Kalman Filtering"
                       ++ (if Js.truthy_string (method d)
                           then " - " ++ match method d with Some m => m | None => "" end
                           else ""))%string |}
           else Placeholder (if isCalibrated p then "--" else "N/A")
       | None => Placeholder (if isCalibrated p then "--" else "N/A")
       end;
     statusMessage := getStatusMessage p |}.

Definition showsLowConfidenceWarning (v : View) : bool :=
  match statusMessage v with
  | Some {| statusType := warning |} => true
  | _ => false
  end.

End HeightDisplay.

(** The props [App] hands to [HeightDisplay]. *)
Definition heightDisplayProps (a : App.State) : HeightDisplay.Props :=
  {| HeightDisplay.heightData := App.heightData a;
     HeightDisplay.isDetecting := App.isDetecting a;
     HeightDisplay.isCalibrated := App.isCalibrated a |}.

(* ===================================================================== *)
(** ** CalibrationComponent *)
(* ===================================================================== *)

Module CalibrationComponent.

Record Props := mkProps {
  isCalibrated : bool
}.

Record State := mkState {
  referenceObject : string;
  customHeight : string;
  referenceHeightPixels : string;
  isCalibrating : bool;
  error : option string;
  success : option string
}.

Definition initialState : State :=
  {| referenceObject := "credit_card"; customHeight := "";
     referenceHeightPixels := ""; isCalibrating := false;
     error := None; success := None |}.

(** [referenceObjects]: key, name, height in cm. *)
Definition referenceObjects : list (string * (string * Js.number)) :=
  [ ("credit_card", ("Credit Card", (54 # 10)%Q));
    ("a4_paper", ("A4 Paper (width)", 21%Q));
    ("a4_paper_height", ("A4 Paper (height)", (297 # 10)%Q));
    ("iphone", ("iPhone (height)", (147 # 10)%Q));
    ("custom", ("Custom", 0%Q)) ].

Fixpoint lookup (key : string) (table : list (string * (string * Js.number)))
  : option (string * Js.number) :=
  match table with
  | [] => None
  | (k, v) :: rest => if String.eqb k key then Some v else lookup key rest
  end.

(** The body of the POST to [http://localhost:8000/calibrate]; a field
    is [None] when [parseFloat] gave NaN. *)
Record Request := mkRequest {
  url : string;
  reference_height_cm : option Js.number;
  reference_height_pixels : option Js.number
}.

(** [x <= 0] on a number that may be NaN. *)
Definition nonPositive (x : option Js.number) : bool :=
  match x with
  | Some q => Qle_bool q 0%Q
  | None => false
  end.

Definition setError (e : option string) (s : State) : State :=
  {| referenceObject := referenceObject s; customHeight := customHeight s;
     referenceHeightPixels := referenceHeightPixels s;
     isCalibrating := isCalibrating s; error := e; success := success s |}.

Definition setSuccess (e : option string) (s : State) : State :=
  {| referenceObject := referenceObject s; customHeight := customHeight s;
     referenceHeightPixels := referenceHeightPixels s;
     isCalibrating := isCalibrating s; error := error s; success := e |}.

Definition setIsCalibrating (b : bool) (s : State) : State :=
  {| referenceObject := referenceObject s; customHeight := customHeight s;
     referenceHeightPixels := referenceHeightPixels s;
     isCalibrating := b; error := error s; success := success s |}.

Definition setReferenceObject (v : string) (s : State) : State :=
  {| referenceObject := v; customHeight := customHeight s;
     referenceHeightPixels := referenceHeightPixels s;
     isCalibrating := isCalibrating s; error := error s; success := success s |}.

Definition setCustomHeight (v : string) (s : State) : State :=
  {| referenceObject := referenceObject s; customHeight := v;
     referenceHeightPixels := referenceHeightPixels s;
     isCalibrating := isCalibrating s; error := error s; success := success s |}.

Definition setReferenceHeightPixels (v : string) (s : State) : State :=
  {| referenceObject := referenceObject s; customHeight := customHeight s;
     referenceHeightPixels := v;
     isCalibrating := isCalibrating s; error := error s; success := success s |}.

(** What an element of the page can be wired to. *)
Inductive Listener :=
| OnClickHandleCalibrate
| OnChangeReferenceObject
| OnChangeCustomHeight
| OnChangeReferenceHeightPixels.

(** The rendered tree: text, an interpolated number, styled containers,
    the status badge with its [isCalibrated] prop, and the three kinds
    of form control. *)
#[warnings="-register-all"]
Inductive Element :=
| Text (s : string)
| NumberText (n : Js.number)
| Styled (name : string) (children : list Element)
| StatusBadge (isCalibrated : bool) (children : list Element)
| Select (value : string) (onChange : Listener) (options : list Element)
| Input (inputType : string) (value : string) (onChange : Listener)
| Button (onClick : Listener) (disabled : bool) (children : list Element).

Definition br : Element := Styled "br" [].

(** [{cond && children}] *)
Definition jsxAnd (cond : bool) (children : list Element) : list Element :=
  if cond then children else [].

Definition optionLabel (entry : string * (string * Js.number)) : Element :=
  let '(_, (name, h)) := entry in
  Styled "option"
    ([Text name; Text " "]
     ++ (if Js.gt h 0%Q then [Text "("; NumberText h; Text "cm)"] else [Text ""])).

Definition form (s : State) : list Element :=
  [ Styled "FormGroup"
      [ Styled "Label" [Text "Reference Object:"];
        Select (referenceObject s) OnChangeReferenceObject
          (map optionLabel referenceObjects) ] ]
  ++ jsxAnd (String.eqb (referenceObject s) "custom")
       [ Styled "FormGroup"
           [ Styled "Label" [Text "Custom Height (cm):"];
             Input "number" (customHeight s) OnChangeCustomHeight ] ]
  ++ [ Styled "FormGroup"
         [ Styled "Label" [Text "Reference Object Height in Pixels:"];
           Input "number" (referenceHeightPixels s) OnChangeReferenceHeightPixels ];
       Button OnClickHandleCalibrate
         (isCalibrating s || String.eqb (referenceHeightPixels s) "")
         [Text (if isCalibrating s then "Calibrating..." else "Calibrate System")] ]
  ++ match error s with
     | Some e => jsxAnd (negb (String.eqb e "")) [Styled "ErrorMessage" [Text e]]
     | None => []
     end
  ++ match success s with
     | Some m => jsxAnd (negb (String.eqb m "")) [Styled "SuccessMessage" [Text m]]
     | None => []
     end
  ++ [ Styled "Instructions"
         [ Styled "strong" [Text "Calibration Instructions:"]; br;
           Text "1. Place the reference object next to where the person will stand"; br;
           Text "2. Take a photo or measure the object's height in pixels"; br;
           Text "3. Enter the pixel height above"; br;
           Text ("4. Click " ++ String Js.dquote "Calibrate System"
                   ++ String Js.dquote "")%string; br;
           Styled "em"
             [Text "Note: The reference object should be at the same distance as the person will be."] ] ].

Definition autoCalibratedLabel : string := "✓ Auto-Calibrated".

Definition render (p : Props) (s : State) : Element :=
  Styled "CalibrationContainer"
    ([ Styled "Title" [Text "System Calibration"];
       StatusBadge true [Text autoCalibratedLabel];
       Styled "SuccessMessage"
         [Text "✓ System uses automatic calibration - no manual setup required!"] ]
     ++ jsxAnd false (form s)
     ++ [ Styled "Instructions"
            [ Styled "strong" [Text "Advanced Holistic Detection System:"]; br;
              Text "• "; Styled "strong" [Text "Full Body Detection:"];
              Text " Detects pose, hands, and face landmarks"; br;
              Text "• "; Styled "strong" [Text "Kalman Filtering:"];
              Text " Advanced smoothing for stable measurements"; br;
              Text "• "; Styled "strong" [Text "Smart Calibration:"];
              Text " Uses torso length with 40 samples and trimmed mean"; br;
              Text "• "; Styled "strong" [Text "Precise Head Detection:"];
              Text " Uses ears, eyes, and nose with body scale reference"; br;
              Text "• "; Styled "strong" [Text "Enhanced Accuracy:"];
              Text " Measures from true head top to toe tips"; br;
              Text "• "; Styled "strong" [Text "Visual Feedback:"];
              Text " Shows head top markers and measurement lines"; br;
              Text "• Works best when you stand 2-3 meters from camera with full body visible" ] ]).

(** The listeners and the status badges of a rendered tree. *)
Fixpoint listeners (e : Element) : list Listener :=
  match e with
  | Text _ | NumberText _ => []
  | Styled _ children => flat_map listeners children
  | StatusBadge _ children => flat_map listeners children
  | Select _ onChange options => onChange :: flat_map listeners options
  | Input _ _ onChange => [onChange]
  | Button onClick _ children => onClick :: flat_map listeners children
  end.

Fixpoint badges (e : Element) : list (bool * list Element) :=
  match e with
  | Text _ | NumberText _ => []
  | Styled _ children => flat_map badges children
  | StatusBadge b children => (b, children) :: flat_map badges children
  | Select _ _ options => flat_map badges options
  | Input _ _ _ => []
  | Button _ _ children => flat_map badges children
  end.

Section Handlers.

(** [parseFloat]; [None] stands for NaN. *)
Variable parseFloat : string -> option Js.number.

(** [handleCalibrate] up to the [await]: the new state and the request
    issued, if any.  A reference object that is no key of the table
    makes the property access throw, which leaves the state as it is. *)
Definition handleCalibrate (s : State) : State * list Request :=
  if String.eqb (referenceHeightPixels s) ""
     || nonPositive (parseFloat (referenceHeightPixels s))
  then (setError (Some "Please enter a valid pixel height for the reference object") s, [])
  else
    let heightCm :=
      if String.eqb (referenceObject s) "custom"
      then Some (parseFloat (customHeight s))
      else option_map (fun v => Some (snd v)) (lookup (referenceObject s) referenceObjects) in
    match heightCm with
    | None => (s, [])
    | Some h =>
        if nonPositive h
        then (setError (Some "Please enter a valid height for the reference object") s, [])
        else
          (setSuccess None (setError None (setIsCalibrating true s)),
           [ {| url := "http://localhost:8000/calibrate";
                reference_height_cm := h;
                reference_height_pixels := parseFloat (referenceHeightPixels s) |} ])
    end.

(** What comes back from the POST: a response with its [status], or a
    failed request. *)
Inductive Reply :=
| Responded (status : string)
| Failed.

(** [handleCalibrate] after the [await]; [onCalibrationComplete] is the
    callback prop. *)
Definition handleReply {P : Type} (onCalibrationComplete : P -> P) (r : Reply)
  : @Handler P State :=
  match r with
  | Responded status =>
      if String.eqb status "calibrated"
      then self (setSuccess (Some "Calibration completed successfully!")) ;;
           parent onCalibrationComplete
      else self (setError (Some "Calibration failed. Please try again."))
  | Failed =>
      self (setError (Some "Failed to connect to server. Make sure the backend is running."))
  end ;;
  self (setIsCalibrating false).

(** Firing a listener with the value the user typed or chose. *)
Definition fire (l : Listener) (value : string) (s : State) : State * list Request :=
  match l with
  | OnClickHandleCalibrate => handleCalibrate s
  | OnChangeReferenceObject => (setReferenceObject value s, [])
  | OnChangeCustomHeight => (setCustomHeight value s, [])
  | OnChangeReferenceHeightPixels => (setReferenceHeightPixels value s, [])
  end.

(** One interaction with the rendered component: the user can only act
    on a listener that is in the tree.  The second component is the log
    of requests issued so far. *)
Inductive interaction (p : Props) : State * list Request -> State * list Request -> Prop :=
| interact : forall s log l value,
    In l (listeners (render p s)) ->
    interaction p (s, log) (fst (fire l value s), log ++ snd (fire l value s)).

Inductive interactions (p : Props) : State * list Request -> State * list Request -> Prop :=
| interactions_refl : forall c, interactions p c c
| interactions_step : forall c1 c2 c3,
    interaction p c1 c2 -> interactions p c2 c3 -> interactions p c1 c3.

End Handlers.

End CalibrationComponent.

(* ===================================================================== *)
(** ** ControlPanel *)
(* ===================================================================== *)

Module ControlPanel.

(** [onReset] tells whether the optional callback was passed. *)
Record Props := mkProps {
  isCalibrated : bool;
  isDetecting : bool;
  cameraError : option string;
  onReset : bool
}.

Inductive Level := good | warning | error.

Record Status := mkStatus {
  status : Level;
  text : string
}.

Definition getCalibrationStatus (p : Props) : Status :=
  if Js.truthy_string (cameraError p) then {| status := error; text := "Camera Error" |}
  else if isCalibrated p then {| status := good; text := "Calibrated" |}
  else {| status := warning; text := "Not Calibrated" |}.

Definition getDetectionStatus (p : Props) : Status :=
  if Js.truthy_string (cameraError p) then {| status := error; text := "Camera Error" |}
  else if isDetecting p then {| status := good; text := "Detecting" |}
  else if isCalibrated p then {| status := warning; text := "Ready" |}
  else {| status := warning; text := "Not Ready" |}.

(** The status grid and the reset button, [{onReset && <Button ...>}]. *)
Record View := mkView {
  calibrationStatus : Status;
  detectionStatus : Status;
  resetButton : bool
}.

Definition render (p : Props) : View :=
  {| calibrationStatus := getCalibrationStatus p;
     detectionStatus := getDetectionStatus p;
     resetButton := onReset p |}.

End ControlPanel.

(** The props [App] hands to [ControlPanel]. *)
Definition controlPanelProps (a : App.State) : ControlPanel.Props :=
  {| ControlPanel.isCalibrated := App.isCalibrated a;
     ControlPanel.isDetecting := App.isDetecting a;
     ControlPanel.cameraError := App.cameraError a;
     ControlPanel.onReset := true |}.

(** The status line [App] renders under the camera. *)
Definition statusText (a : App.State) : string :=
  if App.isDetecting a then "🔴 Detecting"
  else if App.isCalibrated a then "🟢 Ready"
  else "🟡 Calibrating".

(* ===================================================================== *)
(** ** CameraComponent: timers, media stream, connection, rendering *)
(* ===================================================================== *)

Module CameraLifecycle.

Import CameraComponent.

(** A piece of a template string: literal text or an interpolated
    number. *)
Inductive Part :=
| Str (s : string)
| Num (n : Js.number).

Definition getStatusText (s : State) : list Part :=
  if Js.truthy_string (error s) then [Str "Error"]
  else if negb (isConnected s) then [Str "Connecting..."]
  else match calibrationProgress s with
       | Some p => [Str "Calibrating: "; Num p; Str "%"]
       | None => if isDetecting s then [Str "Detecting..."] else [Str "Ready"]
       end.

(** What the component returns: the start screen, the error screen with
    its message, or the camera container with the status overlay, the
    video (hidden or not) and the processed image when there is one. *)
Inductive View :=
| StartScreen
| ErrorScreen (message : string)
| CameraView (overlay : list Part) (videoHidden : bool) (processed : option string).

Definition render (s : State) : View :=
  if negb (hasInteracted s) then StartScreen
  else if Js.truthy_string (error s)
  then ErrorScreen (match error s with Some e => e | None => "" end)
  else CameraView (getStatusText s)
         (Js.truthy_string (processedImage s))
         (if Js.truthy_string (processedImage s) then processedImage s else None).

(** A track of the camera stream: [true] while it is live. *)
Definition MediaStream := list bool.

Definition stopTracks (stream : MediaStream) : MediaStream :=
  map (fun _ => false) stream.

(** [stream.getTracks().forEach(track => track.stop())] on the [k]-th
    stream. *)
Fixpoint stopStreamAt (k : nat) (streams : list MediaStream) : list MediaStream :=
  match streams, k with
  | [], _ => []
  | s :: rest, O => stopTracks s :: rest
  | s :: rest, S k' => s :: stopStreamAt k' rest
  end.

(** The mounted component with what its handlers reach besides the
    state and the two refs: the interval ref, the timers of the window
    (intervals as handle and period, pending timeouts as delays, all of
    them for [captureFrame] and [initializeWebSocket] respectively),
    the streams [getUserMedia] has resolved with, oldest first, which
    of them the video element holds as [srcObject], and the codes
    passed to [close] on sockets of the component. *)
Record Mounted := mkMounted {
  instance : Instance;
  captureIntervalRef : option positive;
  intervals : list (positive * nat);
  nextHandle : positive;
  timeouts : list nat;
  streams : list MediaStream;
  srcObject : option nat;
  closeCalls : list nat
}.

Definition withInstance (f : Instance -> Instance) (m : Mounted) : Mounted :=
  {| instance := f (instance m); captureIntervalRef := captureIntervalRef m;
     intervals := intervals m; nextHandle := nextHandle m;
     timeouts := timeouts m; streams := streams m; srcObject := srcObject m;
     closeCalls := closeCalls m |}.

Definition withStreams (ss : list MediaStream) (src : option nat) (m : Mounted) : Mounted :=
  {| instance := instance m; captureIntervalRef := captureIntervalRef m;
     intervals := intervals m; nextHandle := nextHandle m;
     timeouts := timeouts m; streams := ss; srcObject := src;
     closeCalls := closeCalls m |}.

Definition withTimers (r : option positive) (active : list (positive * nat))
           (next : positive) (pending : list nat) (m : Mounted) : Mounted :=
  {| instance := instance m; captureIntervalRef := r;
     intervals := active; nextHandle := next;
     timeouts := pending; streams := streams m; srcObject := srcObject m;
     closeCalls := closeCalls m |}.

Definition setHasInteracted (b : bool) : Instance -> Instance :=
  withState (fun s =>
    {| isConnected := isConnected s; isDetecting := isDetecting s;
       processedImage := processedImage s; error := error s;
       calibrationProgress := calibrationProgress s;
       hasInteracted := b |}).

(** [clearInterval(h)] *)
Definition clearInterval (h : positive) (m : Mounted) : Mounted :=
  withTimers (captureIntervalRef m)
    (filter (fun t => negb (Pos.eqb (fst t) h)) (intervals m))
    (nextHandle m) (timeouts m) m.

Definition setCaptureIntervalRef (r : option positive) (m : Mounted) : Mounted :=
  withTimers r (intervals m) (nextHandle m) (timeouts m) m.

(** [setInterval(captureFrame, period)]: a fresh handle. *)
Definition setInterval (period : nat) (m : Mounted) : positive * Mounted :=
  (nextHandle m,
   withTimers (captureIntervalRef m) (intervals m ++ [(nextHandle m, period)])
     (Pos.succ (nextHandle m)) (timeouts m) m).

(** [setTimeout(initializeWebSocket, delay)] *)
Definition setTimeout (delay : nat) (m : Mounted) : Mounted :=
  withTimers (captureIntervalRef m) (intervals m) (nextHandle m)
    (timeouts m ++ [delay]) m.

(** [wsRef.current.close(code)]: an open or connecting socket starts
    closing; the call is recorded. *)
Definition closeSocket (code : nat) (m : Mounted) : Mounted :=
  {| instance :=
       withWs (match wsRef (instance m) with
               | Some ws =>
                   Some {| readyState :=
                             match readyState ws with
                             | CONNECTING | OPEN => CLOSING
                             | rs => rs
                             end;
                           sent := sent ws |}
               | None => None
               end) (instance m);
     captureIntervalRef := captureIntervalRef m;
     intervals := intervals m; nextHandle := nextHandle m;
     timeouts := timeouts m; streams := streams m; srcObject := srcObject m;
     closeCalls := closeCalls m ++ [code] |}.

Definition stopDetection (m : Mounted) : Mounted :=
  match captureIntervalRef m with
  | Some h => setCaptureIntervalRef None (clearInterval h m)
  | None => m
  end.

Definition startDetection (m : Mounted) : Mounted :=
  let m := match captureIntervalRef m with
           | Some h => clearInterval h m
           | None => m
           end in
  let '(h, m) := setInterval 200 m in
  setCaptureIntervalRef (Some h) m.

(** The stream of the video element, when both are there, has its
    tracks stopped. *)
Definition stopStream (m : Mounted) : Mounted :=
  match videoRef (instance m), srcObject m with
  | Some _, Some k => withStreams (stopStreamAt k (streams m)) (Some k) m
  | _, _ => m
  end.

(** [initializeWebSocket] up to the assignment of the handlers. *)
Definition initializeWebSocket (m : Mounted) : Mounted :=
  let m :=
    match wsRef (instance m) with
    | Some ws => if negb (ReadyState_eqb (readyState ws) CLOSED)
                 then closeSocket 1000 m else m
    | None => m
    end in
  withInstance (withWs (Some {| readyState := CONNECTING; sent := [] |})) m.

Section Props.
Context {P : Type}.
Variable onDetectionToggle : bool -> P -> P.
Variable onCameraError : string -> P -> P.

Definition onopen : @Handler P Mounted :=
  self (withInstance (setIsConnected true)) ;;
  self (withInstance (setError None)) ;;
  self startDetection.

Definition onclose (code : nat) : @Handler P Mounted :=
  self (withInstance (setIsConnected false)) ;;
  self stopDetection ;;
  when (negb (code =? 1000)) (self (setTimeout 3000)).

Definition onerror : @Handler P Mounted :=
  self (withInstance (setError (Some "Connection to server failed."))) ;;
  parent (onCameraError "Connection to server failed.") ;;
  self stopDetection.

(** [initializeCamera]; [granted] is the stream [getUserMedia] resolves
    with, or [None] when it rejects. *)
Definition initializeCamera (granted : option MediaStream) : @Handler P Mounted :=
  self stopStream ;;
  match granted with
  | Some stream =>
      self (fun m =>
              let granted := length (streams m) in
              let m := withStreams (streams m ++ [stream]) (srcObject m) m in
              match videoRef (instance m) with
              | Some v => withInstance (withVideo (Some (play v)))
                            (withStreams (streams m) (Some granted) m)
              | None => m
              end) ;;
      self initializeWebSocket ;;
      self (withInstance (setError None))
  | None =>
      self (withInstance (setError (Some "Camera access denied or not available."))) ;;
      parent (onCameraError "Camera access denied or not available.")
  end.

(** The cleanup of the effect. *)
Definition cleanup : @Handler P Mounted :=
  self stopDetection ;;
  self (fun m => match wsRef (instance m) with
                 | Some _ => closeSocket 1000 m
                 | None => m
                 end) ;;
  self stopStream.

(** React commits a render: the video element is part of the camera
    view only, so its ref is attached to a new element ([fresh], which
    holds no stream) when that view appears and detached, with what the
    element held, when it goes. *)
Definition commit (fresh : Video) : @Handler P Mounted :=
  self (fun m =>
          match render (state (instance m)), videoRef (instance m) with
          | CameraView _ _ _, Some _ => m
          | CameraView _ _ _, None =>
              withInstance (withVideo (Some fresh)) (withStreams (streams m) None m)
          | _, _ => withInstance (withVideo None) (withStreams (streams m) None m)
          end).

Definition handleStartClick : @Handler P Mounted :=
  self (withInstance (setHasInteracted true)).

Definition handleStopClick : @Handler P Mounted :=
  self stopDetection ;;
  self (withInstance (setIsDetecting false)) ;;
  self (withInstance (setProcessedImage None)) ;;
  self (withInstance (setCalibrationProgress None)) ;;
  parent (onDetectionToggle false) ;;
  self (fun m => match videoRef (instance m), srcObject m with
                 | Some _, Some k => withStreams (stopStreamAt k (streams m)) None m
                 | _, _ => m
                 end) ;;
  self (fun m => if isOpen (wsRef (instance m)) then closeSocket 1000 m else m) ;;
  self (withInstance (setHasInteracted false)) ;;
  self (withInstance (setIsConnected false)).

End Props.

End CameraLifecycle.

(** The page with the mounted camera component, and the handlers of the
    component with the callbacks [App] passes. *)
Definition Page : Type := App.State * CameraLifecycle.Mounted.

Definition client (pg : Page) : App.Client :=
  (fst pg, CameraLifecycle.instance (snd pg)).

Module Wired.

Definition onopen : Page -> Page := CameraLifecycle.onopen.

Definition onclose (code : nat) : Page -> Page := CameraLifecycle.onclose code.

Definition onerror : Page -> Page := CameraLifecycle.onerror App.handleCameraError.

Definition onmessage (data : ServerMessage) (pg : Page) : Page :=
  let c := App.onmessage data (client pg) in
  (fst c, CameraLifecycle.withInstance (fun _ => snd c) (snd pg)).

Definition initializeCamera (granted : option CameraLifecycle.MediaStream) : Page -> Page :=
  CameraLifecycle.initializeCamera App.handleCameraError granted.

Definition cleanup : Page -> Page := CameraLifecycle.cleanup.

Definition commit (fresh : CameraComponent.Video) : Page -> Page :=
  CameraLifecycle.commit fresh.

Definition handleStartClick : Page -> Page := CameraLifecycle.handleStartClick.

Definition handleStopClick : Page -> Page :=
  CameraLifecycle.handleStopClick App.handleDetectionToggle.

Definition handleReset (pg : Page) : Page :=
  let c := App.handleReset (client pg) in
  (fst c, CameraLifecycle.withInstance (fun _ => snd c) (snd pg)).

(** What can happen to the page: socket events, clicks, the effect and
    its cleanup, a commit, a reconnection timeout or a capture interval
    firing, and the socket changing its ready state. *)
Inductive Event :=
| WsOpen
| WsMessage (data : ServerMessage)
| WsClose (code : nat)
| WsError
| ClickStart
| ClickStop
| ClickRetry (granted : option CameraLifecycle.MediaStream)
| ClickResetCalibration
| EffectRuns (granted : option CameraLifecycle.MediaStream)
| EffectCleanup
| Commit (fresh : CameraComponent.Video)
| ReconnectFires
| CaptureFires (ctx : bool)
| SocketBecomes (rs : CameraComponent.ReadyState).

Section Browser.
Variable encodeJpeg : CameraComponent.Frame -> Js.number -> list Byte.byte.

Definition step (e : Event) (pg : Page) : Page :=
  match e with
  | WsOpen => onopen pg
  | WsMessage data => onmessage data pg
  | WsClose code => onclose code pg
  | WsError => onerror pg
  | ClickStart => handleStartClick pg
  | ClickStop => handleStopClick pg
  | ClickRetry granted => initializeCamera granted pg
  | ClickResetCalibration => handleReset pg
  | EffectRuns granted =>
      if CameraComponent.hasInteracted
           (CameraComponent.state (CameraLifecycle.instance (snd pg)))
      then initializeCamera granted pg else pg
  | EffectCleanup => cleanup pg
  | Commit fresh => commit fresh pg
  | ReconnectFires =>
      match CameraLifecycle.timeouts (snd pg) with
      | [] => pg
      | _ :: rest =>
          (fst pg,
           CameraLifecycle.initializeWebSocket
             (CameraLifecycle.withTimers
                (CameraLifecycle.captureIntervalRef (snd pg))
                (CameraLifecycle.intervals (snd pg))
                (CameraLifecycle.nextHandle (snd pg)) rest (snd pg)))
      end
  | CaptureFires ctx =>
      match CameraLifecycle.intervals (snd pg) with
      | _ :: _ =>
          (fst pg,
           CameraLifecycle.withInstance (CameraComponent.captureFrame encodeJpeg ctx) (snd pg))
      | [] => pg
      end
  | SocketBecomes rs =>
      (fst pg,
       CameraLifecycle.withInstance
         (fun i => match CameraComponent.wsRef i with
                   | Some ws =>
                       CameraComponent.withWs
                         (Some {| CameraComponent.readyState := rs;
                                  CameraComponent.sent := CameraComponent.sent ws |}) i
                   | None => i
                   end) (snd pg))
  end.

Definition run (es : list Event) (pg : Page) : Page :=
  fold_left (fun pg e => step e pg) es pg.

End Browser.

End Wired.

(* ===================================================================== *)
(** * Vocabulary of the statements *)
(* ===================================================================== *)

(** What the socket has been asked to send so far. *)
Definition outbox (i : CameraComponent.Instance) : list string :=
  match CameraComponent.wsRef i with
  | Some ws => CameraComponent.sent ws
  | None => []
  end.

(** The session state of the page: the state variables of both
    components, without the refs. *)
Definition session (c : App.Client) : App.State * CameraComponent.State :=
  (fst c, CameraComponent.state (snd c)).

Definition calibrated (c : App.Client) : bool := App.isCalibrated (fst c).

(** The data URL the message handler builds from the [image] property. *)
Definition imageUrl (m : ServerMessage) : string :=
  ("data:image/jpeg;base64," ++ match image m with Some s => s | None => "" end)%string.

(** A page in the middle of a measurement: calibrated, detecting, the
    socket open, a 640x480 video. *)
Definition sample_client : App.Client :=
  ({| App.isCalibrated := true;
      App.heightData := Some {| height_cm := (1702 # 10)%Q; height_feet_inches := "5' 7";
                                confidence := 87%Q; method := None |};
      App.isDetecting := true; App.cameraError := None; App.cameraRef := true |},
   {| CameraComponent.state :=
        {| CameraComponent.isConnected := true; CameraComponent.isDetecting := true;
           CameraComponent.processedImage := None; CameraComponent.error := None;
           CameraComponent.calibrationProgress := None;
           CameraComponent.hasInteracted := true |};
      CameraComponent.wsRef :=
        Some {| CameraComponent.readyState := CameraComponent.OPEN;
                CameraComponent.sent := [] |};
      CameraComponent.videoRef :=
        Some {| CameraComponent.paused := false; CameraComponent.ended := false;
                CameraComponent.videoWidth := 640; CameraComponent.videoHeight := 480;
                CameraComponent.currentFrame := [] |} |}).

(** Sample messages. *)
Definition calibrating_half : ServerMessage :=
  {| type := "calibrating"; image := Some "QUJD"; progress := Some 50%Q; height := None |}.

(** The frame condition as first stated for [info] and [no_person]:
    handling the message changes the height data and the detection flags
    and nothing else. *)
Definition only_height_and_detection_change (m : ServerMessage) (c : App.Client) : Prop :=
  App.onmessage m c =
  (App.setIsDetecting false (App.setHeightData None (fst c)),
   CameraComponent.setIsDetecting false (snd c)).

Definition info_with_frame : ServerMessage :=
  {| type := "info"; image := Some "QUJD"; progress := None; height := None |}.

Definition no_person_plain : ServerMessage :=
  {| type := "no_person"; image := None; progress := None; height := None |}.

Definition reset_ack_plain : ServerMessage :=
  {| type := "reset_ack"; image := None; progress := Some 0%Q; height := None |}.

(** The text of the reset command. *)
Definition reset_json : string :=
  ("{" ++ String Js.dquote "type" ++ String Js.dquote ":"
       ++ String Js.dquote "reset" ++ String Js.dquote "}")%string.

(** Every character of a string passes a test. *)
Fixpoint string_forall (p : ascii -> bool) (s : string) : bool :=
  match s with
  | EmptyString => true
  | String c s' => p c && string_forall p s'
  end.

Definition is_base64_char (c : ascii) : bool :=
  existsb (Ascii.eqb c) Js.base64_alphabet || Ascii.eqb c "="%char.

Definition not_comma (c : ascii) : bool := negb (Ascii.eqb c ","%char).

(** The text of an image message with the given payload. *)
Definition image_json (payload : string) : string :=
  ("{" ++ String Js.dquote "type" ++ String Js.dquote ":"
       ++ String Js.dquote "image" ++ String Js.dquote ","
       ++ String Js.dquote "data" ++ String Js.dquote ":"
       ++ String Js.dquote payload ++ String Js.dquote "}")%string.

(** The condition first stated for a capture to send: the socket is
    open and the video element has a positive width and height. *)
Definition openAndSized (i : CameraComponent.Instance) : bool :=
  CameraComponent.isOpen (CameraComponent.wsRef i)
  && match CameraComponent.videoRef i with
     | Some v => (0 <? CameraComponent.videoWidth v) && (0 <? CameraComponent.videoHeight v)
     | None => false
     end.

(** What one capture hands to the socket. *)
Definition captured (encodeJpeg : CameraComponent.Frame -> Js.number -> list Byte.byte)
           (ctx : bool) (i : CameraComponent.Instance) : list string :=
  match CameraComponent.videoRef i with
  | Some v =>
      if openAndSized i && ctx
      then [image_json (Js.base64 (encodeJpeg (CameraComponent.currentFrame v) 0.8%Q))]
      else []
  | None => []
  end.

(** A stand-in for the encoder: the shortest JPEG frame markers. *)
Definition jpeg_stub (canvas : CameraComponent.Frame) (quality : Js.number) : list Byte.byte :=
  [Byte.xff; Byte.xd8; Byte.xff; Byte.xd9].

(** The warning of [getStatusMessage]. *)
Definition lowConfidenceWarning : HeightDisplay.Status :=
  {| HeightDisplay.statusType := HeightDisplay.warning;
     HeightDisplay.message :=
       "Low confidence detection. Try standing straight and ensure good lighting." |}.

(** The middle 32 of 40 samples, in the words of the specification:
    sort, drop the 4 lowest, keep the next 32. *)
Definition middle32 (samples : list Q) : list Q :=
  firstn 32 (skipn 4 (SampleSort.sort samples)).

(** The message types the switch of the handler knows. *)
Definition known_type (t : string) : bool :=
  String.eqb t "calibrating" || String.eqb t "height_update"
  || String.eqb t "info" || String.eqb t "no_person" || String.eqb t "reset_ack".

(** The handler's first line on the camera component. *)
Definition showImage (m : ServerMessage) (i : CameraComponent.Instance)
  : CameraComponent.Instance :=
  if Js.truthy_string (image m)
  then CameraComponent.setProcessedImage (Some (imageUrl m)) i
  else i.


(** The hint shown while the system is not calibrated. *)
Definition autoCalibrateHint : HeightDisplay.Status :=
  {| HeightDisplay.statusType := HeightDisplay.info;
     HeightDisplay.message :=
       "System will auto-calibrate when you stand in front of the camera with full body visible." |}.


Definition pong_message : ServerMessage :=
  {| type := "pong"; image := None; progress := None; height := None |}.

(** The text of the overlay while calibrating. *)
Definition calibratingText (p : Js.number) : list CameraLifecycle.Part :=
  [CameraLifecycle.Str "Calibrating: "; CameraLifecycle.Num p; CameraLifecycle.Str "%"].

(** The error the socket handler reports. *)
Definition connectionFailed : string := "Connection to server failed.".

(** The two cells of the control panel when the camera failed. *)
Definition cameraErrorCell : ControlPanel.Status :=
  {| ControlPanel.status := ControlPanel.error; ControlPanel.text := "Camera Error" |}.

(** A run of inbound messages on the page, oldest first. *)
Definition pageReceive (msgs : list ServerMessage) (pg : Page) : Page :=
  fold_left (fun pg m => Wired.onmessage m pg) msgs pg.

(** A page whose camera component is mounted around [sample_client],
    with one capture interval running and one stream attached. *)
Definition sample_page : Page :=
  (fst sample_client,
   {| CameraLifecycle.instance := snd sample_client;
      CameraLifecycle.captureIntervalRef := Some 1%positive;
      CameraLifecycle.intervals := [(1%positive, 200)];
      CameraLifecycle.nextHandle := 2%positive;
      CameraLifecycle.timeouts := [];
      CameraLifecycle.streams := [[true]];
      CameraLifecycle.srcObject := Some 0;
      CameraLifecycle.closeCalls := [] |}).

(** The capture timer is accounted for: the intervals of the window are
    the one the ref holds, at the 200 ms period, or none. *)
Definition timersOk (m : CameraLifecycle.Mounted) : Prop :=
  CameraLifecycle.intervals m
  = match CameraLifecycle.captureIntervalRef m with
    | Some h => [(h, 200)]
    | None => []
    end.


(** What the user can do to the socket without a connection event:
    let a capture fire, or reset. *)
Inductive SocketUse :=
| UseCapture (ctx : bool)
| UseReset.

Definition useSocket (encodeJpeg : CameraComponent.Frame -> Js.number -> list Byte.byte)
           (u : SocketUse) (i : CameraComponent.Instance) : CameraComponent.Instance :=
  match u with
  | UseCapture ctx => CameraComponent.captureFrame encodeJpeg ctx i
  | UseReset => CameraComponent.resetSystem i
  end.

(** Two states of the mounted component with the same timers. *)
Definition sameTimers (m' m : CameraLifecycle.Mounted) : Prop :=
  CameraLifecycle.intervals m' = CameraLifecycle.intervals m
  /\ CameraLifecycle.captureIntervalRef m' = CameraLifecycle.captureIntervalRef m.


(** The [k]-th granted stream is [s] and the video element does not
    hold it. *)
Definition unattached (k : nat) (s : CameraLifecycle.MediaStream)
           (m : CameraLifecycle.Mounted) : Prop :=
  nth_error (CameraLifecycle.streams m) k = Some s
  /\ CameraLifecycle.srcObject m <> Some k.

(** Two states of the mounted component with the same streams. *)
Definition sameStreams (m' m : CameraLifecycle.Mounted) : Prop :=
  CameraLifecycle.streams m' = CameraLifecycle.streams m
  /\ CameraLifecycle.srcObject m' = CameraLifecycle.srcObject m.

(** The streams once the video element's own stream, if any, has been
    stopped. *)
Definition streamsAfterStop (m : CameraLifecycle.Mounted) : list CameraLifecycle.MediaStream :=
  match CameraComponent.videoRef (CameraLifecycle.instance m), CameraLifecycle.srcObject m with
  | Some _, Some j => CameraLifecycle.stopStreamAt j (CameraLifecycle.streams m)
  | _, _ => CameraLifecycle.streams m
  end.

(** A page on the error screen: started, the socket failed, the video
    element gone. *)
Definition error_page : Page :=
  Wired.commit {| CameraComponent.paused := true; CameraComponent.ended := false;
                  CameraComponent.videoWidth := 0; CameraComponent.videoHeight := 0;
                  CameraComponent.currentFrame := [] |}
    (Wired.onerror sample_page).

(** [n] captures in a row. *)
Fixpoint captures (encodeJpeg : CameraComponent.Frame -> Js.number -> list Byte.byte)
         (ctx : bool) (n : nat) (i : CameraComponent.Instance) : CameraComponent.Instance :=
  match n with
  | O => i
  | S n' => CameraComponent.captureFrame encodeJpeg ctx (captures encodeJpeg ctx n' i)
  end.

(** The keys of the reference objects with a height of their own. *)
Definition builtinObjects : list string :=
  ["credit_card"; "a4_paper"; "a4_paper_height"; "iphone"].

(** A form filled in for the custom object with the custom height left
    empty. *)
Definition custom_form_without_height : CalibrationComponent.State :=
  {| CalibrationComponent.referenceObject := "custom";
     CalibrationComponent.customHeight := "";
     CalibrationComponent.referenceHeightPixels := "100";
     CalibrationComponent.isCalibrating := false;
     CalibrationComponent.error := None;
     CalibrationComponent.success := None |}.

(** A stand-in for [parseFloat]: NaN on the empty string, 100 on the
    text 100, 1 elsewhere. *)
Definition parseFloat_stub (s : string) : option Js.number :=
  if String.eqb s "" then None
  else if String.eqb s "100" then Some 100%Q
  else Some 1%Q.


(** The error reported when the camera cannot be used. *)
Definition cameraDenied : string := "Camera access denied or not available.".

(* ===================================================================== *)
(** * Properties *)
(* ===================================================================== *)

(** ** JavaScript built-ins on sample values *)

Example toFixed_round_up : Js.toFixed (876 # 10)%Q 0 = "88".
Proof. reflexivity. Qed.

Example toFixed_tie : Js.toFixed (17025 # 100)%Q 1 = "170.3".
Proof. reflexivity. Qed.

Example toFixed_small : Js.toFixed (4 # 100)%Q 1 = "0.0".
Proof. reflexivity. Qed.

Example toFixed_negative : Js.toFixed (- (5 # 2))%Q 0 = "-3".
Proof. reflexivity. Qed.

Example split_data_url : Js.split "," "data:image/jpeg;base64,AAEC" = ["data:image/jpeg;base64"; "AAEC"].
Proof. reflexivity. Qed.

Example base64_Man : Js.base64 [Byte.x4d; Byte.x61; Byte.x6e] = "TWFu".
Proof. reflexivity. Qed.

Example base64_Ma : Js.base64 [Byte.x4d; Byte.x61] = "TWE=".
Proof. reflexivity. Qed.

Example base64_M : Js.base64 [Byte.x4d] = "TQ==".
Proof. reflexivity. Qed.

(** ** The client state machine *)

Ltac unfold_handlers :=
  unfold App.onmessage, App.handleReset, CameraComponent.onmessage,
    CameraComponent.onmessage_image, CameraComponent.onmessage_switch,
    CameraComponent.resetSystem,
    React.andThen, React.when, React.self, React.parent, React.skip,
    App.handleHeightUpdate, App.handleDetectionToggle in *.

Ltac case_type m :=
  repeat match goal with
  | |- context [String.eqb (type m) ?k] =>
      destruct (String.eqb_spec (type m) k)
  end.

Lemma positiveHeight_spec (data : option HeightData) :
  App.positiveHeight data = true <->
  exists d, data = Some d /\ (0 < height_cm d)%Q.
Proof.
  unfold App.positiveHeight, Js.gt. split.
  - destruct data as [d |]; [| discriminate].
    intros H. exists d. split; [reflexivity |].
    apply negb_true_iff in H. apply Qnot_le_lt. intros Hle.
    apply Qle_bool_iff in Hle. congruence.
  - intros [d [-> Hd]]. apply negb_true_iff.
    destruct (Qle_bool (height_cm d) 0) eqn:E; [| reflexivity].
    apply Qle_bool_iff in E. exfalso. exact (Qlt_not_le _ _ Hd E).
Qed.

(** One message: the flag afterwards is the flag before, or the message
    is a height update with a positive height. *)
Lemma calibrated_onmessage (m : ServerMessage) (c : App.Client) :
  calibrated (App.onmessage m c) =
  calibrated c || (String.eqb (type m) "height_update" && App.positiveHeight (height m)).
Proof.
  unfold calibrated. unfold_handlers.
  destruct (Js.truthy_string (image m)); case_type m; simpl;
    try (rewrite orb_false_r; reflexivity);
    try congruence.
  - destruct (App.positiveHeight (height m)); simpl;
      [rewrite orb_true_r | rewrite orb_false_r]; reflexivity.
  - destruct (App.positiveHeight (height m)); simpl;
      [rewrite orb_true_r | rewrite orb_false_r]; reflexivity.
Qed.

Lemma receive_app (pre post : list ServerMessage) (c : App.Client) :
  App.receive (pre ++ post) c = App.receive post (App.receive pre c).
Proof. unfold App.receive. apply fold_left_app. Qed.

Lemma calibrated_receive (msgs : list ServerMessage) :
  forall c, calibrated c = true -> calibrated (App.receive msgs c) = true.
Proof.
  induction msgs as [| m msgs IH]; intros c Hc; [exact Hc |].
  simpl. apply IH. rewrite calibrated_onmessage, Hc. reflexivity.
Qed.

Lemma handleReset_unfold (a : App.State) (i : CameraComponent.Instance) :
  App.handleReset (a, i) =
  ({| App.isCalibrated := false; App.heightData := None;
      App.isDetecting := false; App.cameraError := None;
      App.cameraRef := App.cameraRef a |},
   if App.cameraRef a then CameraComponent.resetSystem i else i).
Proof.
  unfold App.handleReset, React.andThen, React.when, React.self, React.parent,
    React.skip.
  destruct a as [ic hd det ce cr]. simpl. destruct cr; reflexivity.
Qed.

Lemma resetSystem_state (i : CameraComponent.Instance) :
  CameraComponent.state (CameraComponent.resetSystem i) =
  {| CameraComponent.isConnected := CameraComponent.isConnected (CameraComponent.state i);
     CameraComponent.isDetecting := CameraComponent.isDetecting (CameraComponent.state i);
     CameraComponent.processedImage := None;
     CameraComponent.error := CameraComponent.error (CameraComponent.state i);
     CameraComponent.calibrationProgress := Some 0%Q;
     CameraComponent.hasInteracted := CameraComponent.hasInteracted (CameraComponent.state i) |}.
Proof.
  unfold CameraComponent.resetSystem.
  destruct (CameraComponent.wsRef i) as [ws |]; [| reflexivity].
  destruct (CameraComponent.isOpen (Some ws)); reflexivity.
Qed.

(** C2. In the client state machine the calibrated flag becomes true only
    by handling a [height_update] message whose [height_cm] is greater
    than 0; handling an inbound message of any type never sets it back to
    false, so along every sequence of inbound messages the flag is
    monotone; the client-initiated reset sets it to false, and it is the
    only event of the page after which a true flag is false. *)
Theorem calibrated_flag_monotone :
  (forall m c,
      calibrated (App.onmessage m c) = true <->
      calibrated c = true \/
      (type m = "height_update" /\
       exists d, height m = Some d /\ (0 < height_cm d)%Q))
  /\ (forall pre post c,
         calibrated (App.receive pre c) = true ->
         calibrated (App.receive (pre ++ post) c) = true)
  /\ (forall c, calibrated (App.handleReset c) = false)
  /\ (forall e c,
         calibrated c = true -> calibrated (App.step e c) = false ->
         e = App.ClickReset).
Proof.
  split; [| split; [| split]].
  - intros m c. rewrite calibrated_onmessage, orb_true_iff, andb_true_iff.
    rewrite String.eqb_eq, positiveHeight_spec. reflexivity.
  - intros pre post c H. rewrite receive_app. apply calibrated_receive, H.
  - intros [a i]. unfold calibrated. rewrite handleReset_unfold. reflexivity.
  - intros [m |] c Hc Hstep; [| reflexivity].
    cbn [App.step] in Hstep. rewrite calibrated_onmessage, Hc in Hstep.
    discriminate Hstep.
Qed.

(** C3. Reset is idempotent on the session state: resetting twice gives
    the state one reset gives, in which the height data is cleared, the
    calibrated and detection flags are false and the camera error is
    cleared, and (the camera handle being attached) the calibration
    progress is 0 and the processed image is cleared. *)
Theorem reset_idempotent (c : App.Client) :
  session (App.handleReset (App.handleReset c)) = session (App.handleReset c)
  /\ App.heightData (fst (App.handleReset c)) = None
  /\ App.isCalibrated (fst (App.handleReset c)) = false
  /\ App.isDetecting (fst (App.handleReset c)) = false
  /\ App.cameraError (fst (App.handleReset c)) = None
  /\ (App.cameraRef (fst c) = true ->
      CameraComponent.calibrationProgress (snd (session (App.handleReset c))) = Some 0%Q
      /\ CameraComponent.processedImage (snd (session (App.handleReset c))) = None).
Proof.
  destruct c as [[ic hd det ce cr] i].
  rewrite !handleReset_unfold. unfold session.
  cbn [fst snd App.cameraRef App.heightData App.isCalibrated App.isDetecting
       App.cameraError].
  destruct cr; rewrite ?resetSystem_state;
    cbn [CameraComponent.isConnected CameraComponent.isDetecting
         CameraComponent.processedImage CameraComponent.error
         CameraComponent.calibrationProgress CameraComponent.hasInteracted].
  - repeat split; reflexivity.
  - repeat split; try reflexivity; discriminate.
Qed.

Lemma or_number_zero (v : option Js.number) :
  (Js.or_number v 0 == match v with Some q => q | None => 0 end)%Q.
Proof.
  unfold Js.or_number, Js.truthy_number.
  destruct v as [q |]; [| reflexivity].
  destruct (Qeq_bool q 0) eqn:E; cbn [negb]; [| reflexivity].
  apply Qeq_bool_iff in E. symmetry. exact E.
Qed.

(** The whole effect of a [calibrating] message. *)
Lemma onmessage_calibrating (m : ServerMessage) (a : App.State)
      (i : CameraComponent.Instance) :
  type m = "calibrating" ->
  App.onmessage m (a, i) =
  (App.setIsDetecting false (App.setHeightData None a),
   CameraComponent.setIsDetecting false
     (CameraComponent.setCalibrationProgress (Some (Js.or_number (progress m) 0%Q))
        (if Js.truthy_string (image m)
         then CameraComponent.setProcessedImage (Some (imageUrl m)) i
         else i))).
Proof.
  intros Htype. unfold_handlers. rewrite Htype. cbn [String.eqb Ascii.eqb Bool.eqb].
  destruct (Js.truthy_string (image m)); reflexivity.
Qed.

(** C4. A message of type [calibrating] records its [progress] (0 when
    the property is absent) as the calibration progress, clears the
    height data and turns the detection flags off, so the height display
    shows no reading afterwards. *)
Theorem calibrating_message (m : ServerMessage) (c : App.Client)
        (Htype : type m = "calibrating") :
  (exists p,
      CameraComponent.calibrationProgress (snd (session (App.onmessage m c))) = Some p
      /\ (p == match progress m with Some q => q | None => 0 end)%Q)
  /\ App.heightData (fst (App.onmessage m c)) = None
  /\ App.isDetecting (fst (App.onmessage m c)) = false
  /\ CameraComponent.isDetecting (snd (session (App.onmessage m c))) = false
  /\ exists text,
      HeightDisplay.body (HeightDisplay.render (heightDisplayProps (fst (App.onmessage m c))))
      = HeightDisplay.Placeholder text.
Proof.
  destruct c as [a i]. rewrite (onmessage_calibrating m a i Htype).
  unfold session. cbn [fst snd].
  split; [| repeat split].
  - exists (Js.or_number (progress m) 0%Q). split; [reflexivity | apply or_number_zero].
  - unfold HeightDisplay.render, heightDisplayProps. cbn. eexists. reflexivity.
Qed.

Lemma calibrating_message_witness :
  type calibrating_half = "calibrating"
  /\ App.heightData (fst (App.onmessage calibrating_half sample_client)) = None
  /\ App.isDetecting (fst (App.onmessage calibrating_half sample_client)) = false.
Proof.
  split; [reflexivity |].
  pose proof (calibrating_message calibrating_half sample_client eq_refl) as H.
  split; [exact (proj1 (proj2 H)) | exact (proj1 (proj2 (proj2 H)))].
Defined.

(** The whole effect of an [info] or [no_person] message. *)
Lemma onmessage_info (m : ServerMessage) (a : App.State)
      (i : CameraComponent.Instance) :
  type m = "info" \/ type m = "no_person" ->
  App.onmessage m (a, i) =
  (App.setIsDetecting false (App.setHeightData None a),
   CameraComponent.setIsDetecting false
     (if Js.truthy_string (image m)
      then CameraComponent.setProcessedImage (Some (imageUrl m)) i
      else i)).
Proof.
  intros [Htype | Htype]; unfold_handlers; rewrite Htype;
    cbn [String.eqb Ascii.eqb Bool.eqb orb];
    destruct (Js.truthy_string (image m)); reflexivity.
Qed.

(** C5, as first stated, fails: an [info] message that carries an
    annotated frame also replaces the processed image. *)
Lemma info_message_replaces_image :
  type info_with_frame = "info"
  /\ ~ only_height_and_detection_change info_with_frame sample_client
  /\ CameraComponent.processedImage (snd (session sample_client)) = None
  /\ CameraComponent.processedImage
       (snd (session (App.onmessage info_with_frame sample_client)))
     = Some "data:image/jpeg;base64,QUJD".
Proof.
  split; [reflexivity |]. split; [| split; reflexivity].
  unfold only_height_and_detection_change. intros H.
  apply (f_equal (fun c => CameraComponent.processedImage (snd (session c)))) in H.
  discriminate H.
Qed.

(** C5, amended. A message of type [info] or [no_person] clears the
    height data and turns the detection flags off; it leaves the
    calibration progress, the calibrated flag and the rest of the page
    as they were, except that the processed image is replaced by the
    frame the message carries when it carries one. *)
Theorem info_message_frame (m : ServerMessage) (c : App.Client)
        (Htype : type m = "info" \/ type m = "no_person") :
  App.onmessage m c =
  (App.setIsDetecting false (App.setHeightData None (fst c)),
   CameraComponent.setIsDetecting false
     (if Js.truthy_string (image m)
      then CameraComponent.setProcessedImage (Some (imageUrl m)) (snd c)
      else snd c))
  /\ App.heightData (fst (App.onmessage m c)) = None
  /\ App.isDetecting (fst (App.onmessage m c)) = false
  /\ CameraComponent.isDetecting (snd (session (App.onmessage m c))) = false
  /\ CameraComponent.calibrationProgress (snd (session (App.onmessage m c)))
     = CameraComponent.calibrationProgress (snd (session c))
  /\ calibrated (App.onmessage m c) = calibrated c
  /\ (Js.truthy_string (image m) = false -> only_height_and_detection_change m c).
Proof.
  destruct c as [a i]. unfold only_height_and_detection_change.
  rewrite (onmessage_info m a i Htype).
  unfold session, calibrated. cbn [fst snd].
  destruct (Js.truthy_string (image m)); repeat split; try reflexivity; discriminate.
Qed.

Lemma info_message_frame_witness :
  (type no_person_plain = "info" \/ type no_person_plain = "no_person")
  /\ App.heightData (fst (App.onmessage no_person_plain sample_client)) = None
  /\ only_height_and_detection_change no_person_plain sample_client.
Proof.
  pose proof (info_message_frame no_person_plain sample_client (or_intror eq_refl)) as H.
  split; [right; reflexivity |].
  split; [exact (proj1 (proj2 H)) |].
  apply H. reflexivity.
Defined.

(** The [reset_ack] case of the switch. *)
Lemma switch_reset_ack (m : ServerMessage) (c : App.Client) :
  type m = "reset_ack" ->
  CameraComponent.onmessage_switch App.handleHeightUpdate App.handleDetectionToggle m c =
  (fst c, CameraComponent.setCalibrationProgress (Some 0%Q) (snd c)).
Proof.
  intros Htype. unfold CameraComponent.onmessage_switch. rewrite Htype.
  reflexivity.
Qed.

(** C6. On a message of type [reset_ack] the client sets the calibration
    progress to exactly 0; the case changes nothing else: height data,
    detection flags, calibrated flag and processed image are as the
    image line left them, and for an acknowledgement that carries no
    frame the whole handler changes the progress only. *)
Theorem reset_ack_message (m : ServerMessage) (c : App.Client)
        (Htype : type m = "reset_ack") :
  CameraComponent.onmessage_switch App.handleHeightUpdate App.handleDetectionToggle m c
  = (fst c, CameraComponent.setCalibrationProgress (Some 0%Q) (snd c))
  /\ CameraComponent.calibrationProgress (snd (session (App.onmessage m c))) = Some 0%Q
  /\ fst (App.onmessage m c) = fst c
  /\ CameraComponent.isDetecting (snd (session (App.onmessage m c)))
     = CameraComponent.isDetecting (snd (session c))
  /\ CameraComponent.processedImage (snd (session (App.onmessage m c)))
     = CameraComponent.processedImage
         (snd (session (CameraComponent.onmessage_image m c)))
  /\ (Js.truthy_string (image m) = false ->
      App.onmessage m c
      = (fst c, CameraComponent.setCalibrationProgress (Some 0%Q) (snd c))).
Proof.
  split; [apply switch_reset_ack, Htype |].
  unfold App.onmessage, CameraComponent.onmessage, React.andThen.
  rewrite (switch_reset_ack m _ Htype).
  destruct c as [a i]. unfold session, CameraComponent.onmessage_image,
    React.when, React.self, React.skip.
  destruct (Js.truthy_string (image m)); cbn; repeat split; try reflexivity; discriminate.
Qed.

Lemma reset_ack_message_witness :
  type reset_ack_plain = "reset_ack"
  /\ App.onmessage reset_ack_plain sample_client
     = (fst sample_client,
        CameraComponent.setCalibrationProgress (Some 0%Q) (snd sample_client)).
Proof.
  split; [reflexivity |].
  apply (reset_ack_message reset_ack_plain sample_client eq_refl). reflexivity.
Defined.

(** C7. The reset operation of the camera component sends exactly one
    message, the JSON text of [{type: 'reset'}], when the socket is
    open, and sends nothing when it is not (or there is none); in both
    cases it sets the calibration progress to 0 and clears the processed
    image. *)
Theorem resetSystem_sends_reset (i : CameraComponent.Instance) :
  outbox (CameraComponent.resetSystem i)
  = outbox i ++ (if CameraComponent.isOpen (CameraComponent.wsRef i)
                 then [reset_json] else [])
  /\ CameraComponent.calibrationProgress
       (CameraComponent.state (CameraComponent.resetSystem i)) = Some 0%Q
  /\ CameraComponent.processedImage
       (CameraComponent.state (CameraComponent.resetSystem i)) = None.
Proof.
  rewrite resetSystem_state. split; [| split; reflexivity].
  unfold CameraComponent.resetSystem, outbox.
  destruct (CameraComponent.wsRef i) as [ws |] eqn:Hws; cbn.
  - destruct (CameraComponent.ReadyState_eqb (CameraComponent.readyState ws)
                CameraComponent.OPEN); cbn; rewrite ?Hws.
    + reflexivity.
    + rewrite app_nil_r. reflexivity.
  - rewrite Hws. reflexivity.
Qed.

(** ** Capturing a frame *)

Lemma base64_char_ok (n : N) : is_base64_char (Js.base64_char n) = true.
Proof.
  unfold is_base64_char. apply orb_true_iff. left.
  apply existsb_exists. exists (Js.base64_char n).
  split; [| apply Ascii.eqb_refl].
  unfold Js.base64_char. apply nth_In.
  change (length Js.base64_alphabet) with 64.
  pose proof (N.mod_lt n 64 ltac:(discriminate)). lia.
Qed.

Lemma base64_chars (bytes : list Byte.byte) :
  string_forall is_base64_char (Js.base64 bytes) = true.
Proof.
  assert (H : forall n bs, length bs <= n ->
                           string_forall is_base64_char (Js.base64 bs) = true).
  { induction n as [| n IH]; intros bs Hlen.
    - destruct bs; [reflexivity | simpl in Hlen; lia].
    - destruct bs as [| b0 [| b1 [| b2 rest]]]; cbn [Js.base64 string_forall].
      + reflexivity.
      + rewrite !base64_char_ok. reflexivity.
      + rewrite !base64_char_ok. reflexivity.
      + rewrite !base64_char_ok. cbn [andb]. apply IH. simpl in Hlen. lia. }
  apply (H (length bytes)). apply le_n.
Qed.

Lemma base64_char_facts (c : ascii) :
  is_base64_char c = true ->
  not_comma c = true /\ Js.escape_char c = String c "".
Proof.
  destruct c as [[] [] [] [] [] [] [] []]; intros H;
    first [discriminate H | split; reflexivity].
Qed.

Lemma string_forall_impl (p q : ascii -> bool) (s : string) :
  (forall c, p c = true -> q c = true) ->
  string_forall p s = true -> string_forall q s = true.
Proof.
  intros Hpq. induction s as [| c s IH]; [reflexivity |].
  cbn [string_forall]. rewrite !andb_true_iff. intros [Hc Hs].
  split; [apply Hpq, Hc | apply IH, Hs].
Qed.

Lemma escape_base64 (s : string) :
  string_forall is_base64_char s = true -> Js.escape s = s.
Proof.
  induction s as [| c s IH]; [reflexivity |].
  cbn [string_forall Js.escape]. rewrite andb_true_iff. intros [Hc Hs].
  rewrite (proj2 (base64_char_facts c Hc)), (IH Hs). reflexivity.
Qed.

Lemma split_without_separator (sep : ascii) (s : string) :
  string_forall (fun c => negb (Ascii.eqb c sep)) s = true ->
  Js.split sep s = [s].
Proof.
  induction s as [| c s IH]; [reflexivity |].
  cbn [string_forall Js.split]. rewrite andb_true_iff. intros [Hc Hs].
  apply negb_true_iff in Hc. rewrite Hc, (IH Hs). reflexivity.
Qed.

Lemma split_at_first_separator (sep : ascii) (pre s : string) :
  string_forall (fun c => negb (Ascii.eqb c sep)) pre = true ->
  Js.split sep (pre ++ String sep s)%string = pre :: Js.split sep s.
Proof.
  induction pre as [| c pre IH].
  - intros _. cbn. rewrite Ascii.eqb_refl. reflexivity.
  - cbn [string_forall]. rewrite andb_true_iff. intros [Hc Hs].
    apply negb_true_iff in Hc. cbn [String.append Js.split].
    rewrite Hc, (IH Hs). reflexivity.
Qed.

(** The payload of the data URL survives [.split(',')[1]]. *)
Lemma data_url_payload (encodeJpeg : CameraComponent.Frame -> Js.number -> list Byte.byte)
      (canvas : CameraComponent.Frame) (quality : Js.number) :
  nth_error (Js.split "," (CameraComponent.toDataURL encodeJpeg canvas quality)) 1
  = Some (Js.base64 (encodeJpeg canvas quality)).
Proof.
  unfold CameraComponent.toDataURL.
  change ("data:image/jpeg;base64," ++ Js.base64 (encodeJpeg canvas quality))%string
    with ("data:image/jpeg;base64" ++ String "," (Js.base64 (encodeJpeg canvas quality)))%string.
  rewrite split_at_first_separator by reflexivity.
  rewrite split_without_separator; [reflexivity |].
  apply (string_forall_impl is_base64_char); [| apply base64_chars].
  intros c Hc. apply (base64_char_facts c Hc).
Qed.

Lemma append_assoc (a b c : string) :
  ((a ++ b) ++ c = a ++ (b ++ c))%string.
Proof.
  induction a as [| x a IH]; [reflexivity |].
  cbn [String.append]. rewrite IH. reflexivity.
Qed.

Lemma quote_base64 (s : string) :
  string_forall is_base64_char s = true ->
  Js.quote s = String Js.dquote (s ++ String Js.dquote "")%string.
Proof. intros H. unfold Js.quote. rewrite (escape_base64 s H). reflexivity. Qed.

Lemma stringify_image (payload : string) :
  string_forall is_base64_char payload = true ->
  Js.JSON_stringify [("type", Some "image"); ("data", Some payload)]
  = image_json payload.
Proof.
  intros H. unfold Js.JSON_stringify, image_json, Js.members.
  rewrite (quote_base64 payload H).
  rewrite (quote_base64 "type" eq_refl), (quote_base64 "image" eq_refl),
    (quote_base64 "data" eq_refl).
  cbn [String.concat String.append].
  rewrite append_assoc. reflexivity.
Qed.

(** C8, as first stated, fails: with the socket open and a 640x480
    video, a capture for which the canvas yields no 2D context sends
    nothing. *)
Lemma capture_without_context_sends_nothing :
  openAndSized (snd sample_client) = true
  /\ outbox (CameraComponent.captureFrame jpeg_stub false (snd sample_client))
     = outbox (snd sample_client).
Proof. split; reflexivity. Qed.

(** With a context the same capture sends one image message. *)
Example capture_sends_one_frame :
  outbox (CameraComponent.captureFrame jpeg_stub true (snd sample_client))
  = [image_json "/9j/2Q=="].
Proof. reflexivity. Qed.

(** C8, amended. A capture sends a message if and only if the socket is
    open, the video element is there with a strictly positive width and
    height, and the canvas yields a 2D context; it then sends exactly
    one message, the JSON text of an object whose [type] is [image] and
    whose [data] is the base64 text of the JPEG of the current frame. *)
Theorem captureFrame_sends
        (encodeJpeg : CameraComponent.Frame -> Js.number -> list Byte.byte)
        (ctx : bool) (i : CameraComponent.Instance) :
  outbox (CameraComponent.captureFrame encodeJpeg ctx i)
  = outbox i ++ captured encodeJpeg ctx i
  /\ (length (captured encodeJpeg ctx i) <= 1)
  /\ (captured encodeJpeg ctx i <> [] <-> openAndSized i && ctx = true).
Proof.
  unfold captured, openAndSized, CameraComponent.captureFrame, outbox.
  destruct (CameraComponent.videoRef i) as [v |] eqn:Hv.
  2:{ rewrite andb_false_r. cbn. rewrite app_nil_r.
      repeat split; try (intros H; congruence); auto. }
  destruct (CameraComponent.wsRef i) as [ws |] eqn:Hws.
  2:{ cbn. rewrite Hws. repeat split; try (intros H; congruence); auto. }
  destruct (CameraComponent.isOpen (Some ws)) eqn:Hopen; cbn [negb andb].
  2:{ rewrite Hws, app_nil_r. repeat split; try (intros H; congruence); auto. }
  assert (Hdims :
    forall v', v' = (if CameraComponent.paused v || CameraComponent.ended v
                     then CameraComponent.play v else v) ->
               CameraComponent.videoWidth v' = CameraComponent.videoWidth v
               /\ CameraComponent.videoHeight v' = CameraComponent.videoHeight v
               /\ CameraComponent.currentFrame v' = CameraComponent.currentFrame v).
  { intros v' ->. destruct (CameraComponent.paused v || CameraComponent.ended v);
      repeat split; reflexivity. }
  destruct (Hdims _ eq_refl) as [Hw [Hh Hf]]. rewrite Hw, Hh, Hf. clear Hdims Hw Hh Hf.
  destruct ((0 <? CameraComponent.videoWidth v) && (0 <? CameraComponent.videoHeight v));
    cbn [andb].
  2:{ cbn. rewrite Hws, app_nil_r. repeat split; try (intros H; congruence); auto. }
  destruct ctx.
  - cbn [CameraComponent.wsRef CameraComponent.withWs CameraComponent.sent
         CameraComponent.send].
    rewrite data_url_payload, (stringify_image _ (base64_chars _)).
    repeat split; auto. intros _ H. discriminate H.
  - cbn. rewrite Hws, app_nil_r. repeat split; try (intros H; congruence); auto.
Qed.

(** ** The height display *)

Lemma lt_spec (a b : Js.number) : Js.lt a b = true <-> (a < b)%Q.
Proof.
  unfold Js.lt. rewrite negb_true_iff. split.
  - intros H. apply Qnot_le_lt. intros Hle. apply Qle_bool_iff in Hle. congruence.
  - intros H. destruct (Qle_bool b a) eqn:E; [| reflexivity].
    apply Qle_bool_iff in E. exfalso. exact (Qlt_not_le _ _ H E).
Qed.

Lemma status_is_warning (p : HeightDisplay.Props) :
  HeightDisplay.statusMessage (HeightDisplay.render p) = Some lowConfidenceWarning <->
  HeightDisplay.isCalibrated p = true
  /\ HeightDisplay.isDetecting p = true
  /\ exists d, HeightDisplay.heightData p = Some d /\ (confidence d < 0.5)%Q.
Proof.
  unfold HeightDisplay.render, HeightDisplay.getStatusMessage.
  cbn [HeightDisplay.statusMessage].
  destruct (HeightDisplay.isCalibrated p); cbn [negb].
  2:{ split; [discriminate | intros [H _]; discriminate H]. }
  destruct (HeightDisplay.isDetecting p); cbn [negb].
  2:{ split; [discriminate | intros [_ [H _]]; discriminate H]. }
  destruct (HeightDisplay.heightData p) as [d |].
  2:{ split; [discriminate | intros [_ [_ [d [H _]]]]; discriminate H]. }
  destruct (Js.lt (confidence d) 0.5%Q) eqn:E.
  - split; [| reflexivity]. intros _. repeat split. exists d. split; [reflexivity |].
    apply lt_spec in E. exact E.
  - split; [discriminate |]. intros [_ [_ [d' [Hd Hlt]]]].
    injection Hd as <-. apply (lt_spec (confidence d) 0.5%Q) in Hlt. congruence.
Qed.

(** C9. The height display shows the low-confidence warning if and only
    if the system is calibrated and detecting, height data is present
    and its confidence is below 0.5; the same confidence is shown as a
    percentage on the 0-100 scale (divided by 100 for the bar, printed
    with a percent sign), so for a confidence from 0.5 to 100 the
    warning is never shown. *)
Theorem low_confidence_warning :
  (forall p,
      HeightDisplay.showsLowConfidenceWarning (HeightDisplay.render p) = true <->
      HeightDisplay.isCalibrated p = true
      /\ HeightDisplay.isDetecting p = true
      /\ exists d, HeightDisplay.heightData p = Some d /\ (confidence d < 0.5)%Q)
  /\ (forall p,
         HeightDisplay.showsLowConfidenceWarning (HeightDisplay.render p) = true <->
         HeightDisplay.statusMessage (HeightDisplay.render p) = Some lowConfidenceWarning)
  /\ (forall calibrated d,
         exists r,
           HeightDisplay.body
             (HeightDisplay.render
                {| HeightDisplay.heightData := Some d;
                   HeightDisplay.isDetecting := true;
                   HeightDisplay.isCalibrated := calibrated |}) = HeightDisplay.Measured r
           /\ HeightDisplay.confidenceBarFill r = (confidence d / 100)%Q
           /\ HeightDisplay.markerLeftPercent r = (confidence d / 100 * 100)%Q
           /\ HeightDisplay.confidenceValue r = (Js.toFixed (confidence d) 0 ++ "%")%string)
  /\ (forall p d,
         HeightDisplay.heightData p = Some d ->
         (0.5 <= confidence d)%Q -> (confidence d <= 100)%Q ->
         HeightDisplay.showsLowConfidenceWarning (HeightDisplay.render p) = false).
Proof.
  assert (Hshow : forall p,
             HeightDisplay.showsLowConfidenceWarning (HeightDisplay.render p) = true <->
             HeightDisplay.statusMessage (HeightDisplay.render p) = Some lowConfidenceWarning).
  { intros p. unfold HeightDisplay.showsLowConfidenceWarning, HeightDisplay.render,
      HeightDisplay.getStatusMessage. cbn [HeightDisplay.statusMessage].
    destruct (HeightDisplay.isCalibrated p); cbn [negb];
      [| split; discriminate].
    destruct (HeightDisplay.isDetecting p); cbn [negb];
      [| split; discriminate].
    destruct (HeightDisplay.heightData p) as [d |]; [| split; discriminate].
    destruct (Js.lt (confidence d) 0.5%Q); split; try discriminate; reflexivity. }
  split; [| split; [exact Hshow | split]].
  - intros p. rewrite Hshow. apply status_is_warning.
  - intros cal d. eexists. repeat split.
  - intros p d Hd Hlo _.
    destruct (HeightDisplay.showsLowConfidenceWarning (HeightDisplay.render p)) eqn:E;
      [| reflexivity].
    apply Hshow, status_is_warning in E. destruct E as [_ [_ [d' [Hd' Hlt]]]].
    rewrite Hd in Hd'. injection Hd' as <-.
    exfalso. exact (Qlt_not_le _ _ Hlt Hlo).
Qed.

(** A reading with 30 percent confidence is shown without the warning. *)
Example thirty_percent_no_warning :
  HeightDisplay.render
    {| HeightDisplay.heightData :=
         Some {| height_cm := (1702 # 10)%Q; height_feet_inches := "5' 7";
                 confidence := 30%Q; method := None |};
       HeightDisplay.isDetecting := true;
       HeightDisplay.isCalibrated := true |}
  = {| HeightDisplay.body :=
         HeightDisplay.Measured
           {| HeightDisplay.heightValue := "170.2 cm";
              HeightDisplay.centimeters := "170.2";
              HeightDisplay.feetInches := "5' 7";
              HeightDisplay.confidenceBarFill := (30 / 100)%Q;
              HeightDisplay.confidenceValue := "30%";
              HeightDisplay.systemLine :=
                "System: Advanced Holistic Detection with Kalman Filtering" |};
       HeightDisplay.statusMessage := None |}.
Proof. reflexivity. Qed.

(** ** The calibration panel *)

Lemma render_listeners (p : CalibrationComponent.Props) (s : CalibrationComponent.State) :
  CalibrationComponent.listeners (CalibrationComponent.render p s) = [].
Proof. reflexivity. Qed.

(** The manual form, were it rendered, would offer the button that runs
    [handleCalibrate]. *)
Lemma form_offers_calibrate (s : CalibrationComponent.State) :
  In CalibrationComponent.OnClickHandleCalibrate
     (flat_map CalibrationComponent.listeners (CalibrationComponent.form s)).
Proof.
  unfold CalibrationComponent.form. rewrite !flat_map_app, !in_app_iff.
  right. right. left. cbn. right. left. reflexivity.
Qed.

(** [handleCalibrate] does post to the server on valid input. *)
Example handleCalibrate_posts :
  snd (CalibrationComponent.handleCalibrate (fun _ => Some 100%Q)
         (CalibrationComponent.setReferenceHeightPixels "100"
            CalibrationComponent.initialState))
  = [ {| CalibrationComponent.url := "http://localhost:8000/calibrate";
         CalibrationComponent.reference_height_cm := Some (54 # 10)%Q;
         CalibrationComponent.reference_height_pixels := Some 100%Q |} ].
Proof. reflexivity. Qed.

(** C10. Whatever the [isCalibrated] prop, the calibration panel renders
    the Auto-Calibrated badge, with [isCalibrated] set to true; the
    manual form is guarded by a constant false and is not rendered, so
    no listener of the page runs [handleCalibrate] and no interaction
    with the rendered panel issues the POST to [/calibrate]. *)
Theorem calibration_panel_is_static :
  (forall p s,
      CalibrationComponent.badges (CalibrationComponent.render p s)
      = [(true, [CalibrationComponent.Text "✓ Auto-Calibrated"])])
  /\ (forall s, CalibrationComponent.jsxAnd false (CalibrationComponent.form s) = [])
  /\ (forall p s,
         ~ In CalibrationComponent.OnClickHandleCalibrate
              (CalibrationComponent.listeners (CalibrationComponent.render p s)))
  /\ (forall parseFloat p c c',
         CalibrationComponent.interactions parseFloat p c c' -> c' = c).
Proof.
  split; [| split; [| split]].
  - intros p s. reflexivity.
  - intros s. reflexivity.
  - intros p s. rewrite render_listeners. intros [].
  - intros parseFloat p c c' H. induction H as [c | c1 c2 c3 Hstep _ IH].
    + reflexivity.
    + destruct Hstep as [s log l value Hin]. rewrite render_listeners in Hin.
      destruct Hin.
Qed.

(** ** The calibration estimator *)

Module CalibrationFacts.
Import CalibrationEstimator.

Lemma sort_length (l : list Q) : length (SampleSort.sort l) = length l.
Proof. symmetry. apply Permutation_length, SampleSort.Permuted_sort. Qed.

Lemma trim_forty (l : list Q) :
  length l = 40 -> trim (SampleSort.sort l) = middle32 l.
Proof.
  intros H. unfold trim, middle32. rewrite sort_length, H. reflexivity.
Qed.

Lemma middle32_length (l : list Q) : length l = 40 -> length (middle32 l) = 32.
Proof.
  intros H. unfold middle32. rewrite length_firstn, length_skipn, sort_length, H.
  reflexivity.
Qed.

Lemma in_firstn (n : nat) (l : list Q) (x : Q) : In x (firstn n l) -> In x l.
Proof.
  intros H. rewrite <- (firstn_skipn n l). apply in_or_app. left. exact H.
Qed.

Lemma in_skipn (n : nat) (l : list Q) (x : Q) : In x (skipn n l) -> In x l.
Proof.
  intros H. rewrite <- (firstn_skipn n l). apply in_or_app. right. exact H.
Qed.

Lemma middle32_incl (l : list Q) (x : Q) : In x (middle32 l) -> In x l.
Proof.
  unfold middle32. intros H.
  apply (Permutation_in x (Permutation_sym (SampleSort.Permuted_sort l))).
  apply (in_skipn 4), (in_firstn 32), H.
Qed.

Lemma sum_nonnegative (l : list Q) :
  Forall (fun x => 0 < x)%Q l -> (0 <= sum l)%Q.
Proof.
  induction 1 as [| x l Hx _ IH]; [apply Qle_refl |].
  cbn [sum fold_right]. change (0 + 0 <= x + fold_right Qplus 0 l)%Q.
  apply Qplus_le_compat; [apply Qlt_le_weak, Hx | exact IH].
Qed.

Lemma sum_positive (l : list Q) :
  l <> [] -> Forall (fun x => 0 < x)%Q l -> (0 < sum l)%Q.
Proof.
  destruct l as [| x l]; [congruence |].
  intros _ H. inversion H as [| ? ? Hx Hl]; subst. cbn [sum fold_right].
  change (0 + 0 < x + fold_right Qplus 0 l)%Q.
  apply Qplus_lt_le_compat; [exact Hx | apply sum_nonnegative, Hl].
Qed.

Lemma trimmed_mean_forty (l : list Q) :
  length l = 40 -> trimmed_mean l = (sum (middle32 l) / 32)%Q.
Proof.
  intros H. unfold trimmed_mean, mean.
  rewrite (trim_forty l H), (middle32_length l H). reflexivity.
Qed.

Lemma trimmed_mean_positive (l : list Q) :
  length l = 40 -> Forall (fun x => 0 < x)%Q l -> (0 < trimmed_mean l)%Q.
Proof.
  intros Hlen Hpos. rewrite (trimmed_mean_forty l Hlen).
  apply Qlt_shift_div_l; [reflexivity |]. rewrite Qmult_0_l.
  apply sum_positive.
  - intros E. pose proof (middle32_length l Hlen) as H32. rewrite E in H32.
    discriminate H32.
  - apply Forall_forall. intros x Hx.
    apply (proj1 (Forall_forall _ l) Hpos), middle32_incl, Hx.
Qed.

(** Below the target the samples are only collected. *)
Lemma feed_all_collects (l : list Q) :
  forall buffer,
    length buffer + length l < TARGET_SAMPLES ->
    feed_all (Uncalibrated buffer) l = Uncalibrated (buffer ++ l).
Proof.
  induction l as [| x l IH]; intros buffer H.
  - rewrite app_nil_r. reflexivity.
  - cbn [feed_all fold_left feed]. cbn [length] in H.
    assert (Hlt : (TARGET_SAMPLES <=? length (buffer ++ [x])) = false).
    { apply Nat.leb_gt. rewrite length_app. cbn [length]. lia. }
    rewrite Hlt. fold (feed_all (Uncalibrated (buffer ++ [x])) l).
    rewrite IH.
    + rewrite <- app_assoc. reflexivity.
    + rewrite length_app. cbn [length]. lia.
Qed.

(** The sample that fills the buffer triggers the computation. *)
Lemma feed_all_target (l : list Q) :
  length l = TARGET_SAMPLES ->
  feed_all initial l = calibrate l.
Proof.
  intros H. destruct (exists_last (l := l)) as [l' [x ->]].
  { intros ->. discriminate H. }
  rewrite length_app in H. cbn [length] in H.
  unfold feed_all, initial. rewrite fold_left_app. cbn [fold_left].
  fold (feed_all (Uncalibrated []) l').
  rewrite feed_all_collects by (cbn [length]; lia).
  cbn [app feed].
  assert (Hge : (TARGET_SAMPLES <=? length (l' ++ [x])) = true).
  { apply Nat.leb_le. rewrite length_app. cbn [length]. lia. }
  rewrite Hge. reflexivity.
Qed.

End CalibrationFacts.

(** Half way through the collection the progress is 50; a reset brings
    it back to 0. *)
Example reset_mid_calibration :
  CalibrationEstimator.progress
    (CalibrationEstimator.feed_all CalibrationEstimator.initial
       (CalibrationEstimator.synthetic 20)) = 50
  /\ CalibrationEstimator.progress
       (CalibrationEstimator.reset
          (CalibrationEstimator.feed_all CalibrationEstimator.initial
             (CalibrationEstimator.synthetic 20))) = 0.
Proof. split; reflexivity. Qed.

(** C1. When the sample buffer reaches 40 well-formed (positive) torso
    samples the estimator becomes Calibrated with scale 50 divided by
    the mean of the middle 32 samples, the 4 lowest and the 4 highest of
    the sorted samples being discarded; for the samples 1, 2, ..., 40
    the scale is 50/20.5; 39 samples leave it Uncalibrated. *)
Theorem calibration_after_forty_samples :
  (forall samples,
      length samples = 40 ->
      Forall (fun x => 0 < x)%Q samples ->
      CalibrationEstimator.feed_all CalibrationEstimator.initial samples
      = CalibrationEstimator.Calibrated
          (50 / (CalibrationEstimator.sum (middle32 samples) / 32))%Q)
  /\ (exists scale,
         CalibrationEstimator.feed_all CalibrationEstimator.initial
           (CalibrationEstimator.synthetic 40)
         = CalibrationEstimator.Calibrated scale
         /\ (scale == 50 / 20.5)%Q
         /\ middle32 (CalibrationEstimator.synthetic 40)
            = map (fun i => inject_Z (Z.of_nat i)) (seq 5 32))
  /\ (forall samples,
         length samples = 39 ->
         CalibrationEstimator.feed_all CalibrationEstimator.initial samples
         = CalibrationEstimator.Uncalibrated samples).
Proof.
  split; [| split].
  - intros samples Hlen Hpos.
    rewrite (CalibrationFacts.feed_all_target samples Hlen).
    unfold CalibrationEstimator.calibrate.
    pose proof (CalibrationFacts.trimmed_mean_positive samples Hlen Hpos) as Hmean.
    destruct (Qle_bool (CalibrationEstimator.trimmed_mean samples) 0) eqn:E.
    + apply Qle_bool_iff in E. exfalso. exact (Qlt_not_le _ _ Hmean E).
    + rewrite (CalibrationFacts.trimmed_mean_forty samples Hlen). reflexivity.
  - eexists. split; [vm_compute; reflexivity |]. split; vm_compute; reflexivity.
  - intros samples Hlen.
    apply (CalibrationFacts.feed_all_collects samples []).
    rewrite Hlen. cbn. unfold CalibrationEstimator.TARGET_SAMPLES. lia.
Qed.

Lemma calibration_after_forty_samples_witness :
  length (CalibrationEstimator.synthetic 40) = 40
  /\ Forall (fun x => 0 < x)%Q (CalibrationEstimator.synthetic 40)
  /\ CalibrationEstimator.feed_all CalibrationEstimator.initial
       (CalibrationEstimator.synthetic 40)
     = CalibrationEstimator.Calibrated
         (50 / (CalibrationEstimator.sum
                  (middle32 (CalibrationEstimator.synthetic 40)) / 32))%Q.
Proof.
  assert (Hpos : Forall (fun x => 0 < x)%Q (CalibrationEstimator.synthetic 40)).
  { unfold CalibrationEstimator.synthetic. apply Forall_forall. intros x Hx.
    apply in_map_iff in Hx. destruct Hx as [i [<- Hi]]. apply in_seq in Hi.
    change 0%Q with (inject_Z 0). rewrite <- Zlt_Qlt. lia. }
  split; [reflexivity |]. split; [exact Hpos |].
  exact (proj1 calibration_after_forty_samples (CalibrationEstimator.synthetic 40) eq_refl Hpos).
Defined.

(* ===================================================================== *)
(** * Further properties of the client *)
(* ===================================================================== *)

(** ** The message handler *)

Lemma onmessage_height_update (m : ServerMessage) (a : App.State)
      (i : CameraComponent.Instance) :
  type m = "height_update" ->
  App.onmessage m (a, i) =
  (App.setIsDetecting true (App.handleHeightUpdate (height m) a),
   CameraComponent.setIsDetecting true
     (CameraComponent.setCalibrationProgress None (showImage m i))).
Proof.
  intros Htype. unfold showImage, imageUrl.
  unfold App.onmessage, CameraComponent.onmessage, CameraComponent.onmessage_image,
    CameraComponent.onmessage_switch, React.andThen, React.when, React.self,
    React.parent, React.skip, App.handleDetectionToggle.
  rewrite Htype. cbn [String.eqb Ascii.eqb Bool.eqb].
  destruct (Js.truthy_string (image m)); reflexivity.
Qed.

Lemma onmessage_reset_ack (m : ServerMessage) (a : App.State)
      (i : CameraComponent.Instance) :
  type m = "reset_ack" ->
  App.onmessage m (a, i) =
  (a, CameraComponent.setCalibrationProgress (Some 0%Q) (showImage m i)).
Proof.
  intros Htype. unfold showImage, imageUrl. unfold_handlers.
  rewrite Htype. cbn [String.eqb Ascii.eqb Bool.eqb orb].
  destruct (Js.truthy_string (image m)); reflexivity.
Qed.

Lemma onmessage_unknown (m : ServerMessage) (a : App.State)
      (i : CameraComponent.Instance) :
  known_type (type m) = false ->
  App.onmessage m (a, i) = (a, showImage m i).
Proof.
  unfold known_type. rewrite !orb_false_iff.
  intros [[[[H1 H2] H3] H4] H5]. unfold showImage, imageUrl. unfold_handlers.
  rewrite H1, H2, H3, H4, H5. cbn [orb].
  destruct (Js.truthy_string (image m)); reflexivity.
Qed.

(** The five cases of the handler, with [showImage] for its first line. *)
Lemma onmessage_cases (m : ServerMessage) (a : App.State)
      (i : CameraComponent.Instance) :
  (type m = "calibrating" /\
   App.onmessage m (a, i) =
   (App.setIsDetecting false (App.setHeightData None a),
    CameraComponent.setIsDetecting false
      (CameraComponent.setCalibrationProgress
         (Some (Js.or_number (progress m) 0%Q)) (showImage m i))))
  \/ (type m = "height_update" /\
      App.onmessage m (a, i) =
      (App.setIsDetecting true (App.handleHeightUpdate (height m) a),
       CameraComponent.setIsDetecting true
         (CameraComponent.setCalibrationProgress None (showImage m i))))
  \/ ((type m = "info" \/ type m = "no_person") /\
      App.onmessage m (a, i) =
      (App.setIsDetecting false (App.setHeightData None a),
       CameraComponent.setIsDetecting false (showImage m i)))
  \/ (type m = "reset_ack" /\
      App.onmessage m (a, i) =
      (a, CameraComponent.setCalibrationProgress (Some 0%Q) (showImage m i)))
  \/ (known_type (type m) = false /\ App.onmessage m (a, i) = (a, showImage m i)).
Proof.
  destruct (String.eqb_spec (type m) "calibrating") as [H1 | H1].
  { left. split; [exact H1 |]. rewrite (onmessage_calibrating m a i H1). reflexivity. }
  destruct (String.eqb_spec (type m) "height_update") as [H2 | H2].
  { right. left. split; [exact H2 | apply onmessage_height_update, H2]. }
  destruct (String.eqb_spec (type m) "info") as [H3 | H3].
  { right. right. left. split; [left; exact H3 |].
    rewrite (onmessage_info m a i (or_introl H3)). reflexivity. }
  destruct (String.eqb_spec (type m) "no_person") as [H4 | H4].
  { right. right. left. split; [right; exact H4 |].
    rewrite (onmessage_info m a i (or_intror H4)). reflexivity. }
  destruct (String.eqb_spec (type m) "reset_ack") as [H5 | H5].
  { right. right. right. left. split; [exact H5 | apply onmessage_reset_ack, H5]. }
  right. right. right. right.
  assert (Hk : known_type (type m) = false).
  { unfold known_type. rewrite !orb_false_iff.
    repeat split; apply String.eqb_neq; assumption. }
  split; [exact Hk | apply onmessage_unknown, Hk].
Qed.

Lemma showImage_frame (m : ServerMessage) (i : CameraComponent.Instance) :
  CameraComponent.wsRef (showImage m i) = CameraComponent.wsRef i
  /\ CameraComponent.videoRef (showImage m i) = CameraComponent.videoRef i
  /\ CameraComponent.isConnected (CameraComponent.state (showImage m i))
     = CameraComponent.isConnected (CameraComponent.state i)
  /\ CameraComponent.error (CameraComponent.state (showImage m i))
     = CameraComponent.error (CameraComponent.state i)
  /\ CameraComponent.hasInteracted (CameraComponent.state (showImage m i))
     = CameraComponent.hasInteracted (CameraComponent.state i)
  /\ CameraComponent.isDetecting (CameraComponent.state (showImage m i))
     = CameraComponent.isDetecting (CameraComponent.state i)
  /\ CameraComponent.calibrationProgress (CameraComponent.state (showImage m i))
     = CameraComponent.calibrationProgress (CameraComponent.state i).
Proof.
  unfold showImage. destruct (Js.truthy_string (image m)); repeat split; reflexivity.
Qed.

(** What no message changes, for one message. *)
Lemma onmessage_connection_frame (m : ServerMessage) (c : App.Client) :
  CameraComponent.wsRef (snd (App.onmessage m c)) = CameraComponent.wsRef (snd c)
  /\ CameraComponent.videoRef (snd (App.onmessage m c)) = CameraComponent.videoRef (snd c)
  /\ CameraComponent.isConnected (snd (session (App.onmessage m c)))
     = CameraComponent.isConnected (snd (session c))
  /\ CameraComponent.error (snd (session (App.onmessage m c)))
     = CameraComponent.error (snd (session c))
  /\ CameraComponent.hasInteracted (snd (session (App.onmessage m c)))
     = CameraComponent.hasInteracted (snd (session c))
  /\ App.cameraError (fst (App.onmessage m c)) = App.cameraError (fst c)
  /\ App.cameraRef (fst (App.onmessage m c)) = App.cameraRef (fst c).
Proof.
  destruct c as [a i]. unfold session.
  destruct (showImage_frame m i) as [Hw [Hv [Hc [He [Hh _]]]]].
  destruct (onmessage_cases m a i)
    as [[_ ->] | [[_ ->] | [[_ ->] | [[_ ->] | [_ ->]]]]];
    cbn [fst snd]; unfold App.handleHeightUpdate;
    try destruct (App.positiveHeight (height m));
    cbn; rewrite ?Hw, ?Hv, ?Hc, ?He, ?Hh; repeat split; reflexivity.
Qed.

Lemma receive_connection_frame (msgs : list ServerMessage) (c : App.Client) :
  outbox (snd (App.receive msgs c)) = outbox (snd c)
  /\ CameraComponent.wsRef (snd (App.receive msgs c)) = CameraComponent.wsRef (snd c)
  /\ CameraComponent.videoRef (snd (App.receive msgs c)) = CameraComponent.videoRef (snd c)
  /\ CameraComponent.isConnected (snd (session (App.receive msgs c)))
     = CameraComponent.isConnected (snd (session c))
  /\ CameraComponent.error (snd (session (App.receive msgs c)))
     = CameraComponent.error (snd (session c))
  /\ CameraComponent.hasInteracted (snd (session (App.receive msgs c)))
     = CameraComponent.hasInteracted (snd (session c))
  /\ App.cameraError (fst (App.receive msgs c)) = App.cameraError (fst c)
  /\ App.cameraRef (fst (App.receive msgs c)) = App.cameraRef (fst c).
Proof.
  revert c. induction msgs as [| m msgs IH]; intros c.
  - repeat split; reflexivity.
  - cbn [App.receive fold_left]. fold (App.receive msgs (App.onmessage m c)).
    destruct (IH (App.onmessage m c)) as [I0 [I1 [I2 [I3 [I4 [I5 [I6 I7]]]]]]].
    destruct (onmessage_connection_frame m c) as [H1 [H2 [H3 [H4 [H5 [H6 H7]]]]]].
    unfold outbox in *.
    rewrite I0, I1, I2, I3, I4, I5, I6, I7, H1, H2, H3, H4, H5, H6, H7.
    repeat split; reflexivity.
Qed.

(** X1. No inbound message, and no sequence of them, sends anything on
    the socket, changes the socket or the video element, the connected
    flag, the error of the camera component, its start flag, or the
    camera error and the camera handle of the page. *)
Theorem messages_leave_connection_alone (msgs : list ServerMessage) (c : App.Client) :
  outbox (snd (App.receive msgs c)) = outbox (snd c)
  /\ CameraComponent.wsRef (snd (App.receive msgs c)) = CameraComponent.wsRef (snd c)
  /\ CameraComponent.videoRef (snd (App.receive msgs c)) = CameraComponent.videoRef (snd c)
  /\ CameraComponent.isConnected (snd (session (App.receive msgs c)))
     = CameraComponent.isConnected (snd (session c))
  /\ CameraComponent.error (snd (session (App.receive msgs c)))
     = CameraComponent.error (snd (session c))
  /\ CameraComponent.hasInteracted (snd (session (App.receive msgs c)))
     = CameraComponent.hasInteracted (snd (session c))
  /\ App.cameraError (fst (App.receive msgs c)) = App.cameraError (fst c)
  /\ App.cameraRef (fst (App.receive msgs c)) = App.cameraRef (fst c).
Proof. exact (receive_connection_frame msgs c). Qed.

(** X2. Handling the same message twice leaves the page as handling it
    once does: a duplicated delivery is harmless. *)
Theorem onmessage_idempotent (m : ServerMessage) (c : App.Client) :
  App.onmessage m (App.onmessage m c) = App.onmessage m c.
Proof.
  destruct c as [a i].
  destruct (onmessage_cases m a i)
    as [[Ht E] | [[Ht E] | [[Ht E] | [[Ht E] | [Ht E]]]]]; rewrite E.
  - rewrite (onmessage_calibrating m _ _ Ht). unfold showImage, imageUrl.
    destruct (Js.truthy_string (image m)); reflexivity.
  - rewrite (onmessage_height_update m _ _ Ht). unfold showImage, App.handleHeightUpdate.
    destruct (Js.truthy_string (image m)); destruct (App.positiveHeight (height m));
      reflexivity.
  - rewrite (onmessage_info m _ _ Ht). unfold showImage, imageUrl.
    destruct (Js.truthy_string (image m)); reflexivity.
  - rewrite (onmessage_reset_ack m _ _ Ht). unfold showImage.
    destruct (Js.truthy_string (image m)); reflexivity.
  - rewrite (onmessage_unknown m _ _ Ht). unfold showImage.
    destruct (Js.truthy_string (image m)); reflexivity.
Qed.

(** X3. A message whose type the switch does not know changes nothing
    but the processed image, and nothing at all when it carries no
    image. *)
Theorem unknown_message_ignored (m : ServerMessage) (c : App.Client)
        (Htype : known_type (type m) = false) :
  App.onmessage m c = (fst c, showImage m (snd c))
  /\ (Js.truthy_string (image m) = false -> App.onmessage m c = c).
Proof.
  destruct c as [a i]. rewrite (onmessage_unknown m a i Htype). split; [reflexivity |].
  intros H. unfold showImage. rewrite H. reflexivity.
Qed.

Lemma unknown_message_ignored_witness :
  known_type (type pong_message) = false
  /\ App.onmessage pong_message sample_client = sample_client.
Proof.
  split; [reflexivity |].
  apply (unknown_message_ignored pong_message sample_client eq_refl). reflexivity.
Defined.



(** ** What the user sees *)

Lemma showImage_processed (m : ServerMessage) (i : CameraComponent.Instance) :
  CameraComponent.processedImage (CameraComponent.state (showImage m i))
  = if Js.truthy_string (image m) then Some (imageUrl m)
    else CameraComponent.processedImage (CameraComponent.state i).
Proof. unfold showImage. destruct (Js.truthy_string (image m)); reflexivity. Qed.

(** X5. On a connected camera component without error, the overlay
    after a message reads: the progress after [calibrating] (0 when the
    message has none), "Detecting..." after [height_update],
    "Calibrating: 0%" after [reset_ack]; after [info] or [no_person]
    it keeps reading the last progress while there is one, and reads
    "Ready" only when there is none. *)
Theorem overlay_after_message (m : ServerMessage) (c : App.Client)
        (Hconnected : CameraComponent.isConnected (snd (session c)) = true)
        (Hfine : Js.truthy_string (CameraComponent.error (snd (session c))) = false) :
  CameraLifecycle.getStatusText (snd (session (App.onmessage m c)))
  = if String.eqb (type m) "calibrating"
    then calibratingText (Js.or_number (progress m) 0%Q)
    else if String.eqb (type m) "height_update"
    then [CameraLifecycle.Str "Detecting..."]
    else if String.eqb (type m) "info" || String.eqb (type m) "no_person"
    then match CameraComponent.calibrationProgress (snd (session c)) with
         | Some p => calibratingText p
         | None => [CameraLifecycle.Str "Ready"]
         end
    else if String.eqb (type m) "reset_ack"
    then calibratingText 0%Q
    else CameraLifecycle.getStatusText (snd (session c)).
Proof.
  destruct c as [a i]. unfold session in *. cbn [fst snd] in *.
  destruct (showImage_frame m i) as [_ [_ [Hc [He [_ [Hd Hp]]]]]].
  unfold CameraLifecycle.getStatusText.
  destruct (onmessage_cases m a i)
    as [[Ht E] | [[Ht E] | [[[Ht | Ht] E] | [[Ht E] | [Ht E]]]]]; rewrite E;
    cbn [fst snd CameraComponent.state CameraComponent.setIsDetecting
         CameraComponent.setCalibrationProgress CameraComponent.withState
         CameraComponent.error CameraComponent.isConnected
         CameraComponent.calibrationProgress CameraComponent.isDetecting];
    rewrite ?Hc, ?He, ?Hd, ?Hp, ?Hconnected, ?Hfine; cbn [negb].
  - rewrite Ht. reflexivity.
  - rewrite Ht. reflexivity.
  - rewrite Ht. cbn. destruct (CameraComponent.calibrationProgress (CameraComponent.state i));
      reflexivity.
  - rewrite Ht. cbn. destruct (CameraComponent.calibrationProgress (CameraComponent.state i));
      reflexivity.
  - rewrite Ht. reflexivity.
  - unfold known_type in Ht. rewrite !orb_false_iff in Ht.
    destruct Ht as [[[[H1 H2] H3] H4] H5]. rewrite H1, H2, H3, H4, H5. reflexivity.
Qed.

Lemma overlay_after_message_witness :
  CameraComponent.isConnected (snd (session sample_client)) = true
  /\ Js.truthy_string (CameraComponent.error (snd (session sample_client))) = false
  /\ CameraLifecycle.getStatusText
       (snd (session (App.onmessage no_person_plain
                        (App.onmessage calibrating_half sample_client))))
     = calibratingText 50%Q.
Proof.
  split; [reflexivity |]. split; [reflexivity |].
  exact (overlay_after_message no_person_plain
           (App.onmessage calibrating_half sample_client) eq_refl eq_refl).
Defined.

(** X6. In the camera view the live video and the annotated frame are
    never shown together nor both missing: the video is hidden exactly
    when a processed image is shown.  A message that carries a
    non-empty image puts the annotated frame there; a reset brings the
    live video back. *)
Theorem camera_view_shows_one_picture :
  (forall s overlay hidden processed,
      CameraLifecycle.render s = CameraLifecycle.CameraView overlay hidden processed ->
      (hidden = true /\ exists u, processed = Some u /\ u <> "")
      \/ (hidden = false /\ processed = None))
  /\ (forall m c,
         Js.truthy_string (image m) = true ->
         CameraComponent.hasInteracted (snd (session c)) = true ->
         Js.truthy_string (CameraComponent.error (snd (session c))) = false ->
         exists overlay,
           CameraLifecycle.render (snd (session (App.onmessage m c)))
           = CameraLifecycle.CameraView overlay true (Some (imageUrl m)))
  /\ (forall i,
         CameraComponent.hasInteracted (CameraComponent.state i) = true ->
         Js.truthy_string (CameraComponent.error (CameraComponent.state i)) = false ->
         exists overlay,
           CameraLifecycle.render (CameraComponent.state (CameraComponent.resetSystem i))
           = CameraLifecycle.CameraView overlay false None).
Proof.
  split; [| split].
  - intros s overlay hidden processed. unfold CameraLifecycle.render.
    destruct (CameraComponent.hasInteracted s); cbn [negb]; [| discriminate].
    destruct (Js.truthy_string (CameraComponent.error s)); [discriminate |].
    destruct (Js.truthy_string (CameraComponent.processedImage s)) eqn:E;
      intros H; injection H as _ <- <-.
    + left. split; [reflexivity |].
      unfold Js.truthy_string in E.
      destruct (CameraComponent.processedImage s) as [u |]; [| discriminate].
      exists u. split; [reflexivity |]. intros ->. discriminate E.
    + right. split; reflexivity.
  - intros m [a i] Himg Hstart Hfine. unfold session in *. cbn [fst snd] in *.
    assert (Hnew : CameraComponent.processedImage
                     (CameraComponent.state (snd (App.onmessage m (a, i))))
                   = Some (imageUrl m)
                   /\ CameraComponent.hasInteracted
                        (CameraComponent.state (snd (App.onmessage m (a, i)))) = true
                   /\ Js.truthy_string
                        (CameraComponent.error
                           (CameraComponent.state (snd (App.onmessage m (a, i))))) = false).
    { pose proof (showImage_processed m i) as Hp. rewrite Himg in Hp.
      destruct (onmessage_connection_frame m (a, i)) as [_ [_ [_ [He [Hh _]]]]].
      unfold session in He, Hh. cbn [fst snd] in He, Hh.
      rewrite He, Hh. split; [| split; assumption].
      destruct (onmessage_cases m a i)
        as [[_ ->] | [[_ ->] | [[_ ->] | [[_ ->] | [_ ->]]]]]; exact Hp. }
    destruct Hnew as [Hp [Hh He]].
    unfold CameraLifecycle.render. rewrite Hh, He, Hp. cbn [negb].
    assert (Ht : Js.truthy_string (Some (imageUrl m)) = true).
    { unfold Js.truthy_string, imageUrl. reflexivity. }
    rewrite Ht. eexists. reflexivity.
  - intros i Hstart Hfine. unfold CameraLifecycle.render.
    rewrite resetSystem_state. cbn. rewrite Hstart, Hfine. cbn.
    eexists. reflexivity.
Qed.

Lemma control_panel_cells (p : ControlPanel.Props) :
  Js.truthy_string (ControlPanel.cameraError p) = true ->
  ControlPanel.getCalibrationStatus p = cameraErrorCell
  /\ ControlPanel.getDetectionStatus p = cameraErrorCell.
Proof.
  intros H. unfold ControlPanel.getCalibrationStatus, ControlPanel.getDetectionStatus.
  rewrite H. split; reflexivity.
Qed.

(** X7. The control panel shows the error level in a cell exactly when
    there is a (non-empty) camera error, and then both cells read
    Camera Error whatever the flags; without an error the calibration
    cell is good exactly when the page is calibrated, and the detection
    cell is good exactly when it is detecting. *)
Theorem control_panel_reports (p : ControlPanel.Props) :
  (ControlPanel.status (ControlPanel.getCalibrationStatus p) = ControlPanel.error
   <-> Js.truthy_string (ControlPanel.cameraError p) = true)
  /\ (ControlPanel.status (ControlPanel.getDetectionStatus p) = ControlPanel.error
      <-> Js.truthy_string (ControlPanel.cameraError p) = true)
  /\ (Js.truthy_string (ControlPanel.cameraError p) = true ->
      ControlPanel.getCalibrationStatus p = cameraErrorCell
      /\ ControlPanel.getDetectionStatus p = cameraErrorCell)
  /\ (ControlPanel.status (ControlPanel.getCalibrationStatus p) = ControlPanel.good
      <-> Js.truthy_string (ControlPanel.cameraError p) = false
          /\ ControlPanel.isCalibrated p = true)
  /\ (ControlPanel.status (ControlPanel.getDetectionStatus p) = ControlPanel.good
      <-> Js.truthy_string (ControlPanel.cameraError p) = false
          /\ ControlPanel.isDetecting p = true).
Proof.
  split; [| split; [| split; [apply control_panel_cells |]]];
    unfold ControlPanel.getCalibrationStatus, ControlPanel.getDetectionStatus;
    destruct (Js.truthy_string (ControlPanel.cameraError p));
    destruct (ControlPanel.isCalibrated p); destruct (ControlPanel.isDetecting p);
    cbn; repeat split; intros; try discriminate; try reflexivity;
    repeat match goal with H : _ /\ _ |- _ => destruct H end; try discriminate.
Qed.

(** X8. Right after a reset the page reads as not calibrated
    everywhere: the control panel shows Not Calibrated and Not Ready,
    with no camera error, the status line reads Calibrating, and the
    height display shows N/A with the auto-calibrate hint; with the
    camera handle attached, the component connected and free of error,
    the overlay reads "Calibrating: 0%". *)
Theorem page_after_reset (c : App.Client) :
  ControlPanel.render (controlPanelProps (fst (App.handleReset c)))
  = {| ControlPanel.calibrationStatus :=
         {| ControlPanel.status := ControlPanel.warning;
            ControlPanel.text := "Not Calibrated" |};
       ControlPanel.detectionStatus :=
         {| ControlPanel.status := ControlPanel.warning;
            ControlPanel.text := "Not Ready" |};
       ControlPanel.resetButton := true |}
  /\ statusText (fst (App.handleReset c)) = "🟡 Calibrating"
  /\ HeightDisplay.render (heightDisplayProps (fst (App.handleReset c)))
     = {| HeightDisplay.body := HeightDisplay.Placeholder "N/A";
          HeightDisplay.statusMessage := Some autoCalibrateHint |}
  /\ (App.cameraRef (fst c) = true ->
      CameraComponent.isConnected (snd (session c)) = true ->
      Js.truthy_string (CameraComponent.error (snd (session c))) = false ->
      CameraLifecycle.getStatusText (snd (session (App.handleReset c)))
      = calibratingText 0%Q).
Proof.
  destruct c as [a i]. rewrite handleReset_unfold. unfold session. cbn [fst snd].
  repeat split.
  intros Href Hc He. rewrite Href, resetSystem_state.
  unfold CameraLifecycle.getStatusText. cbn. rewrite Hc, He. reflexivity.
Qed.

(** ** Timers, sockets and streams of the camera component *)

Ltac unfold_lifecycle :=
  unfold Wired.step, Wired.onopen, Wired.onclose, Wired.onerror, Wired.onmessage,
    Wired.initializeCamera, Wired.cleanup, Wired.commit, Wired.handleStartClick,
    Wired.handleStopClick, Wired.handleReset,
    CameraLifecycle.onopen, CameraLifecycle.onclose, CameraLifecycle.onerror,
    CameraLifecycle.initializeCamera, CameraLifecycle.cleanup, CameraLifecycle.commit,
    CameraLifecycle.handleStartClick, CameraLifecycle.handleStopClick,
    React.andThen, React.when, React.self, React.parent, React.skip in *.

Lemma sameTimers_refl (m : CameraLifecycle.Mounted) : sameTimers m m.
Proof. split; reflexivity. Qed.

Lemma sameTimers_trans (m1 m2 m3 : CameraLifecycle.Mounted) :
  sameTimers m1 m2 -> sameTimers m2 m3 -> sameTimers m1 m3.
Proof. intros [H1 H2] [H3 H4]. split; congruence. Qed.

Lemma sameTimers_withInstance (f : CameraComponent.Instance -> CameraComponent.Instance)
      (m : CameraLifecycle.Mounted) :
  sameTimers (CameraLifecycle.withInstance f m) m.
Proof. split; reflexivity. Qed.

Lemma sameTimers_withStreams (ss : list CameraLifecycle.MediaStream) (src : option nat)
      (m : CameraLifecycle.Mounted) :
  sameTimers (CameraLifecycle.withStreams ss src m) m.
Proof. split; reflexivity. Qed.

Lemma sameTimers_closeSocket (code : nat) (m : CameraLifecycle.Mounted) :
  sameTimers (CameraLifecycle.closeSocket code m) m.
Proof. split; reflexivity. Qed.

Lemma sameTimers_setTimeout (delay : nat) (m : CameraLifecycle.Mounted) :
  sameTimers (CameraLifecycle.setTimeout delay m) m.
Proof. split; reflexivity. Qed.

Lemma sameTimers_dropTimeout (pending : list nat) (m : CameraLifecycle.Mounted) :
  sameTimers (CameraLifecycle.withTimers (CameraLifecycle.captureIntervalRef m)
                (CameraLifecycle.intervals m) (CameraLifecycle.nextHandle m) pending m) m.
Proof. split; reflexivity. Qed.

Lemma sameTimers_stopStream (m : CameraLifecycle.Mounted) :
  sameTimers (CameraLifecycle.stopStream m) m.
Proof.
  unfold CameraLifecycle.stopStream.
  destruct (CameraComponent.videoRef (CameraLifecycle.instance m));
    destruct (CameraLifecycle.srcObject m); split; reflexivity.
Qed.

Lemma sameTimers_initializeWebSocket (m : CameraLifecycle.Mounted) :
  sameTimers (CameraLifecycle.initializeWebSocket m) m.
Proof.
  unfold CameraLifecycle.initializeWebSocket.
  destruct (CameraComponent.wsRef (CameraLifecycle.instance m)) as [ws |];
    [destruct (CameraComponent.ReadyState_eqb (CameraComponent.readyState ws)
                 CameraComponent.CLOSED) |];
    split; reflexivity.
Qed.

(** Peel the outermost operation that leaves the timers alone. *)
Ltac same_timers :=
  repeat first
    [ apply sameTimers_refl
    | match goal with
      | |- sameTimers (match ?d with _ => _ end) _ => destruct d
      | |- sameTimers (if ?d then _ else _) _ => destruct d
      | |- sameTimers (CameraLifecycle.withInstance _ _) _ =>
          eapply sameTimers_trans; [apply sameTimers_withInstance |]
      | |- sameTimers (CameraLifecycle.withStreams _ _ _) _ =>
          eapply sameTimers_trans; [apply sameTimers_withStreams |]
      | |- sameTimers (CameraLifecycle.closeSocket _ _) _ =>
          eapply sameTimers_trans; [apply sameTimers_closeSocket |]
      | |- sameTimers (CameraLifecycle.setTimeout _ _) _ =>
          eapply sameTimers_trans; [apply sameTimers_setTimeout |]
      | |- sameTimers (CameraLifecycle.stopStream _) _ =>
          eapply sameTimers_trans; [apply sameTimers_stopStream |]
      | |- sameTimers (CameraLifecycle.initializeWebSocket _) _ =>
          eapply sameTimers_trans; [apply sameTimers_initializeWebSocket |]
      | |- sameTimers (CameraLifecycle.withTimers _ _ _ _ _) _ =>
          eapply sameTimers_trans; [apply sameTimers_dropTimeout |]
      end ].

Lemma timersOk_same (m m' : CameraLifecycle.Mounted) :
  sameTimers m' m -> timersOk m -> timersOk m'.
Proof. unfold timersOk. intros [-> ->]. exact (fun H => H). Qed.

Lemma stopDetection_timers (m : CameraLifecycle.Mounted) :
  timersOk m ->
  CameraLifecycle.intervals (CameraLifecycle.stopDetection m) = []
  /\ CameraLifecycle.captureIntervalRef (CameraLifecycle.stopDetection m) = None.
Proof.
  unfold timersOk, CameraLifecycle.stopDetection. intros H.
  destruct (CameraLifecycle.captureIntervalRef m) as [h |] eqn:E.
  - cbn. rewrite H. cbn. rewrite Pos.eqb_refl. split; reflexivity.
  - rewrite E. split; [exact H | reflexivity].
Qed.

Lemma startDetection_timers (m : CameraLifecycle.Mounted) :
  timersOk m ->
  CameraLifecycle.intervals (CameraLifecycle.startDetection m)
  = [(CameraLifecycle.nextHandle m, 200)]
  /\ CameraLifecycle.captureIntervalRef (CameraLifecycle.startDetection m)
     = Some (CameraLifecycle.nextHandle m).
Proof.
  unfold timersOk, CameraLifecycle.startDetection. intros H.
  destruct (CameraLifecycle.captureIntervalRef m) as [h |] eqn:E; cbn.
  - rewrite H. cbn. rewrite Pos.eqb_refl. split; reflexivity.
  - rewrite H. split; reflexivity.
Qed.

Lemma timersOk_stop (m : CameraLifecycle.Mounted) :
  timersOk m -> timersOk (CameraLifecycle.stopDetection m).
Proof.
  intros H. destruct (stopDetection_timers m H) as [Hi Hr].
  unfold timersOk. rewrite Hi, Hr. reflexivity.
Qed.

Lemma timersOk_start (m : CameraLifecycle.Mounted) :
  timersOk m -> timersOk (CameraLifecycle.startDetection m).
Proof.
  intros H. destruct (startDetection_timers m H) as [Hi Hr].
  unfold timersOk. rewrite Hi, Hr. reflexivity.
Qed.

Lemma step_timersOk (encodeJpeg : CameraComponent.Frame -> Js.number -> list Byte.byte)
      (e : Wired.Event) (pg : Page) :
  timersOk (snd pg) -> timersOk (snd (Wired.step encodeJpeg e pg)).
Proof.
  destruct pg as [a m]. cbn [snd]. intros H.
  destruct e as [| data | code | | | | granted | | granted | | fresh | | ctx | rs];
    unfold_lifecycle; cbn [fst snd].
  - apply timersOk_start. refine (timersOk_same m _ _ H). same_timers.
  - refine (timersOk_same m _ _ H). same_timers.
  - refine (timersOk_same (CameraLifecycle.stopDetection _) _ _
              (timersOk_stop _ (timersOk_same m _ _ H))).
    + destruct (negb (code =? 1000)); cbn [fst snd]; same_timers.
    + same_timers.
  - refine (timersOk_stop _ (timersOk_same m _ _ H)). same_timers.
  - refine (timersOk_same m _ _ H). same_timers.
  - refine (timersOk_same (CameraLifecycle.stopDetection m) _ _ (timersOk_stop _ H)).
    same_timers.
  - refine (timersOk_same m _ _ H).
    destruct granted as [stream |]; cbn [fst snd]; same_timers.
  - refine (timersOk_same m _ _ H). same_timers.
  - refine (timersOk_same m _ _ H).
    destruct (CameraComponent.hasInteracted
                (CameraComponent.state (CameraLifecycle.instance m)));
      [| apply sameTimers_refl].
    destruct granted as [stream |]; cbn [fst snd]; same_timers.
  - refine (timersOk_same (CameraLifecycle.stopDetection m) _ _ (timersOk_stop _ H)).
    same_timers.
  - refine (timersOk_same m _ _ H). same_timers.
  - refine (timersOk_same m _ _ H).
    destruct (CameraLifecycle.timeouts m) as [| t rest]; cbn [fst snd]; same_timers.
  - refine (timersOk_same m _ _ H).
    destruct (CameraLifecycle.intervals m); cbn [fst snd]; same_timers.
  - refine (timersOk_same m _ _ H). same_timers.
Qed.

(** X9. The capture timer never leaks: if the only interval of the
    window is the one the interval ref holds (as on mount, when there is
    none), this remains so after any sequence of socket events, clicks,
    effect runs and cleanups, commits, reconnections and captures; so
    at most one capture interval is ever active. *)
Theorem capture_timer_never_leaks
        (encodeJpeg : CameraComponent.Frame -> Js.number -> list Byte.byte)
        (es : list Wired.Event) (pg : Page)
        (Hok : timersOk (snd pg)) :
  timersOk (snd (Wired.run encodeJpeg es pg))
  /\ length (CameraLifecycle.intervals (snd (Wired.run encodeJpeg es pg))) <= 1.
Proof.
  assert (H : timersOk (snd (Wired.run encodeJpeg es pg))).
  { revert pg Hok. induction es as [| e es IH]; intros pg Hok; [exact Hok |].
    cbn [Wired.run fold_left]. apply IH. apply step_timersOk, Hok. }
  split; [exact H |]. unfold timersOk in H. rewrite H.
  destruct (CameraLifecycle.captureIntervalRef (snd (Wired.run encodeJpeg es pg)));
    cbn; lia.
Qed.

Lemma capture_timer_never_leaks_witness :
  timersOk (snd sample_page)
  /\ length (CameraLifecycle.intervals
               (snd (Wired.run jpeg_stub
                       [Wired.WsClose 1006; Wired.ReconnectFires; Wired.WsOpen; Wired.WsOpen]
                       sample_page))) <= 1.
Proof.
  split; [reflexivity |].
  exact (proj2 (capture_timer_never_leaks jpeg_stub
                  [Wired.WsClose 1006; Wired.ReconnectFires; Wired.WsOpen; Wired.WsOpen]
                  sample_page eq_refl)).
Defined.

(** X10. With the timer accounted for, the socket opening leaves
    exactly one capture interval running, at 200 ms; the socket
    closing or failing, the stop button and the cleanup of the effect
    leave none. *)
Theorem capture_runs_only_while_open
        (encodeJpeg : CameraComponent.Frame -> Js.number -> list Byte.byte)
        (pg : Page) (Hok : timersOk (snd pg)) :
  (exists h,
      CameraLifecycle.intervals (snd (Wired.step encodeJpeg Wired.WsOpen pg)) = [(h, 200)])
  /\ (forall code,
         CameraLifecycle.intervals (snd (Wired.step encodeJpeg (Wired.WsClose code) pg)) = [])
  /\ CameraLifecycle.intervals (snd (Wired.step encodeJpeg Wired.WsError pg)) = []
  /\ CameraLifecycle.intervals (snd (Wired.step encodeJpeg Wired.ClickStop pg)) = []
  /\ CameraLifecycle.intervals (snd (Wired.step encodeJpeg Wired.EffectCleanup pg)) = [].
Proof.
  destruct pg as [a m]. cbn [snd] in Hok.
  assert (Hstop : forall m', sameTimers m' m ->
                             CameraLifecycle.intervals (CameraLifecycle.stopDetection m') = []).
  { intros m' Hs. apply stopDetection_timers, (timersOk_same m m' Hs Hok). }
  assert (Hafter : forall x m', sameTimers m' m ->
                                sameTimers x (CameraLifecycle.stopDetection m') ->
                                CameraLifecycle.intervals x = []).
  { intros x m' Hs [Hx _]. rewrite Hx. apply Hstop, Hs. }
  split; [| split; [| split; [| split]]]; unfold_lifecycle; cbn [fst snd].
  - eexists. refine (proj1 (startDetection_timers _ (timersOk_same m _ _ Hok))).
    same_timers.
  - intros code. apply (Hafter _ (CameraLifecycle.withInstance
                                    (CameraComponent.setIsConnected false) m)).
    + same_timers.
    + destruct (negb (code =? 1000)); cbn [fst snd]; same_timers.
  - apply Hstop. same_timers.
  - apply (Hafter _ m); same_timers.
  - apply (Hafter _ m); same_timers.
Qed.

Lemma capture_runs_only_while_open_witness :
  timersOk (snd sample_page)
  /\ CameraLifecycle.intervals (snd (Wired.step jpeg_stub Wired.ClickStop sample_page)) = [].
Proof.
  split; [reflexivity |].
  exact (proj1 (proj2 (proj2 (proj2
           (capture_runs_only_while_open jpeg_stub sample_page eq_refl))))).
Defined.

Lemma client_pageReceive (msgs : list ServerMessage) (pg : Page) :
  client (pageReceive msgs pg) = App.receive msgs (client pg).
Proof.
  revert pg. induction msgs as [| m msgs IH]; intros pg; [reflexivity |].
  cbn [pageReceive App.receive fold_left].
  fold (pageReceive msgs (Wired.onmessage m pg)).
  fold (App.receive msgs (App.onmessage m (client pg))).
  rewrite IH. f_equal. unfold Wired.onmessage, client. cbn.
  destruct (App.onmessage m (fst pg, CameraLifecycle.instance (snd pg))). reflexivity.
Qed.

(** X11. A socket error is shown until the component is initialised
    again: after [onerror], and after any messages that still arrive,
    the page holds the camera error, both cells of the control panel
    read Camera Error, the overlay reads Error and a started component
    renders the error screen.  A reset clears the camera error of the
    page but not the error of the camera component, which keeps
    rendering the error screen. *)
Theorem socket_error_persists (msgs : list ServerMessage) (pg : Page) :
  let failed := pageReceive msgs (Wired.onerror pg) in
  let reset := Wired.handleReset failed in
  App.cameraError (fst failed) = Some connectionFailed
  /\ ControlPanel.getCalibrationStatus (controlPanelProps (fst failed)) = cameraErrorCell
  /\ ControlPanel.getDetectionStatus (controlPanelProps (fst failed)) = cameraErrorCell
  /\ CameraLifecycle.getStatusText (snd (session (client failed)))
     = [CameraLifecycle.Str "Error"]
  /\ (CameraComponent.hasInteracted (snd (session (client pg))) = true ->
      CameraLifecycle.render (snd (session (client failed)))
      = CameraLifecycle.ErrorScreen connectionFailed
      /\ CameraLifecycle.render (snd (session (client reset)))
         = CameraLifecycle.ErrorScreen connectionFailed)
  /\ App.cameraError (fst reset) = None
  /\ CameraComponent.error (snd (session (client reset))) = Some connectionFailed.
Proof.
  intros failed reset.
  assert (Hclient : client failed = App.receive msgs (client (Wired.onerror pg))).
  { apply client_pageReceive. }
  destruct (receive_connection_frame msgs (client (Wired.onerror pg)))
    as [_ [_ [_ [_ [He [Hh [Hce _]]]]]]].
  rewrite <- Hclient in He, Hh, Hce.
  assert (Herr : CameraComponent.error (snd (session (client failed)))
                 = Some connectionFailed).
  { rewrite He. destruct pg as [a m]. unfold Wired.onerror. unfold_lifecycle.
    unfold session, client. cbn [fst snd].
    destruct (CameraLifecycle.captureIntervalRef
                (CameraLifecycle.withInstance
                   (CameraComponent.setError (Some "Connection to server failed.")) m))
      eqn:E; unfold CameraLifecycle.stopDetection; rewrite E; reflexivity. }
  assert (Hstart : CameraComponent.hasInteracted (snd (session (client failed)))
                   = CameraComponent.hasInteracted (snd (session (client pg)))).
  { rewrite Hh. destruct pg as [a m]. unfold Wired.onerror. unfold_lifecycle.
    unfold session, client. cbn [fst snd].
    destruct (CameraLifecycle.captureIntervalRef
                (CameraLifecycle.withInstance
                   (CameraComponent.setError (Some "Connection to server failed.")) m))
      eqn:E; unfold CameraLifecycle.stopDetection; rewrite E; reflexivity. }
  assert (Hpage : App.cameraError (fst failed) = Some connectionFailed).
  { change (fst failed) with (fst (client failed)). rewrite Hce.
    destruct pg as [a m]. reflexivity. }
  assert (Hreset : client reset = App.handleReset (client failed)).
  { unfold reset, Wired.handleReset, client. cbn [fst snd].
    destruct (App.handleReset (fst failed, CameraLifecycle.instance (snd failed))).
    reflexivity. }
  assert (Hkept : CameraComponent.state (snd (client reset))
                  = (if App.cameraRef (fst failed)
                     then CameraComponent.state
                            (CameraComponent.resetSystem (snd (client failed)))
                     else CameraComponent.state (snd (client failed)))).
  { rewrite Hreset. unfold client at 1. rewrite handleReset_unfold. cbn [snd].
    destruct (App.cameraRef (fst failed)); reflexivity. }
  assert (Herr' : CameraComponent.error (snd (session (client reset)))
                  = Some connectionFailed
                  /\ CameraComponent.hasInteracted (snd (session (client reset)))
                     = CameraComponent.hasInteracted (snd (session (client pg)))).
  { unfold session in *. cbn [snd] in *. rewrite Hkept.
    destruct (App.cameraRef (fst failed)); rewrite ?resetSystem_state; cbn;
      split; assumption. }
  destruct Herr' as [Herr' Hstart'].
  split; [exact Hpage |].
  split; [apply control_panel_cells; cbn; rewrite Hpage; reflexivity |].
  split; [apply control_panel_cells; cbn; rewrite Hpage; reflexivity |].
  split.
  { unfold CameraLifecycle.getStatusText. rewrite Herr. reflexivity. }
  split.
  { intros Hs. unfold CameraLifecycle.render.
    rewrite Herr, Herr', Hstart, Hstart', Hs. split; reflexivity. }
  split; [| exact Herr'].
  change (fst reset) with (fst (client reset)). rewrite Hreset.
  destruct (client failed) as [a i]. rewrite handleReset_unfold. reflexivity.
Qed.

Lemma stopStreamAt_nth (k : nat) (streams : list CameraLifecycle.MediaStream) :
  nth_error (CameraLifecycle.stopStreamAt k streams) k
  = option_map CameraLifecycle.stopTracks (nth_error streams k).
Proof.
  revert k. induction streams as [| s rest IH]; intros [| k]; cbn; auto.
Qed.

Lemma stopStreamAt_other (j k : nat) (streams : list CameraLifecycle.MediaStream) :
  j <> k ->
  nth_error (CameraLifecycle.stopStreamAt j streams) k = nth_error streams k.
Proof.
  revert j k. induction streams as [| s rest IH]; intros j k H.
  - destruct j; reflexivity.
  - destruct j as [| j]; destruct k as [| k]; cbn;
      [congruence | reflexivity | reflexivity | apply IH; congruence].
Qed.

Lemma stopTracks_all_stopped (s : CameraLifecycle.MediaStream) :
  Forall (fun live => live = false) (CameraLifecycle.stopTracks s).
Proof.
  unfold CameraLifecycle.stopTracks. induction s; cbn; constructor; auto.
Qed.

(** The mounted component after the stop button, field by field. *)
Lemma handleStopClick_unfold (a : App.State) (m : CameraLifecycle.Mounted) :
  Wired.handleStopClick (a, m) =
  (App.setIsDetecting false a,
   {| CameraLifecycle.instance :=
        {| CameraComponent.state :=
             {| CameraComponent.isConnected := false;
                CameraComponent.isDetecting := false;
                CameraComponent.processedImage := None;
                CameraComponent.error :=
                  CameraComponent.error (CameraComponent.state (CameraLifecycle.instance m));
                CameraComponent.calibrationProgress := None;
                CameraComponent.hasInteracted := false |};
           CameraComponent.wsRef :=
             match CameraComponent.wsRef (CameraLifecycle.instance m) with
             | Some ws =>
                 if CameraComponent.ReadyState_eqb (CameraComponent.readyState ws)
                      CameraComponent.OPEN
                 then Some {| CameraComponent.readyState := CameraComponent.CLOSING;
                              CameraComponent.sent := CameraComponent.sent ws |}
                 else Some ws
             | None => None
             end;
           CameraComponent.videoRef := CameraComponent.videoRef (CameraLifecycle.instance m) |};
      CameraLifecycle.captureIntervalRef := None;
      CameraLifecycle.intervals :=
        match CameraLifecycle.captureIntervalRef m with
        | Some h => filter (fun t => negb (Pos.eqb (fst t) h)) (CameraLifecycle.intervals m)
        | None => CameraLifecycle.intervals m
        end;
      CameraLifecycle.nextHandle := CameraLifecycle.nextHandle m;
      CameraLifecycle.timeouts := CameraLifecycle.timeouts m;
      CameraLifecycle.streams :=
        match CameraComponent.videoRef (CameraLifecycle.instance m),
              CameraLifecycle.srcObject m with
        | Some _, Some k => CameraLifecycle.stopStreamAt k (CameraLifecycle.streams m)
        | _, _ => CameraLifecycle.streams m
        end;
      CameraLifecycle.srcObject :=
        match CameraComponent.videoRef (CameraLifecycle.instance m),
              CameraLifecycle.srcObject m with
        | Some _, Some k => None
        | _, _ => CameraLifecycle.srcObject m
        end;
      CameraLifecycle.closeCalls :=
        CameraLifecycle.closeCalls m
          ++ (if CameraComponent.isOpen (CameraComponent.wsRef (CameraLifecycle.instance m))
              then [1000] else []) |}).
Proof.
  destruct m as [[st ws v] r active next pending ss src closes].
  unfold Wired.handleStopClick. unfold_lifecycle.
  unfold CameraLifecycle.stopDetection, App.handleDetectionToggle.
  cbn [fst snd CameraLifecycle.captureIntervalRef CameraLifecycle.instance
       CameraLifecycle.srcObject CameraLifecycle.streams CameraLifecycle.closeCalls
       CameraLifecycle.intervals CameraLifecycle.nextHandle CameraLifecycle.timeouts
       CameraComponent.wsRef CameraComponent.videoRef CameraComponent.state].
  destruct r as [h |]; destruct v as [v |]; destruct src as [k |];
    destruct ws as [[[] sent] |]; cbn [app]; rewrite ?app_nil_r; reflexivity.
Qed.

(** X12. The stop button brings the component back to the start
    screen and turns detection off on the page, whose height data and
    calibrated flag it leaves alone, so that the height display shows
    its placeholder.  It closes the socket, with code 1000, only when
    the socket is open, and sends nothing to the server; the stream of
    a mounted video element has all its tracks stopped and is detached.
    Clicking stop again changes nothing. *)
Theorem stop_click (pg : Page) :
  let stopped := Wired.handleStopClick pg in
  CameraLifecycle.render (snd (session (client stopped))) = CameraLifecycle.StartScreen
  /\ App.isDetecting (fst stopped) = false
  /\ App.heightData (fst stopped) = App.heightData (fst pg)
  /\ App.isCalibrated (fst stopped) = App.isCalibrated (fst pg)
  /\ HeightDisplay.body (HeightDisplay.render (heightDisplayProps (fst stopped)))
     = HeightDisplay.Placeholder (if App.isCalibrated (fst pg) then "--" else "N/A")
  /\ CameraLifecycle.closeCalls (snd stopped)
     = CameraLifecycle.closeCalls (snd pg)
         ++ (if CameraComponent.isOpen (CameraComponent.wsRef (snd (client pg)))
             then [1000] else [])
  /\ outbox (snd (client stopped)) = outbox (snd (client pg))
  /\ (forall v k,
         CameraComponent.videoRef (snd (client pg)) = Some v ->
         CameraLifecycle.srcObject (snd pg) = Some k ->
         CameraLifecycle.srcObject (snd stopped) = None
         /\ nth_error (CameraLifecycle.streams (snd stopped)) k
            = option_map CameraLifecycle.stopTracks
                (nth_error (CameraLifecycle.streams (snd pg)) k))
  /\ Wired.handleStopClick stopped = stopped.
Proof.
  destruct pg as [a m]. intros stopped. subst stopped.
  rewrite !handleStopClick_unfold. unfold client, session, outbox.
  cbn [fst snd CameraLifecycle.instance CameraComponent.state CameraLifecycle.closeCalls
       CameraLifecycle.srcObject CameraLifecycle.streams CameraComponent.wsRef
       CameraComponent.videoRef CameraLifecycle.captureIntervalRef
       CameraLifecycle.intervals CameraLifecycle.nextHandle CameraLifecycle.timeouts
       CameraComponent.error].
  split; [reflexivity |]. split; [reflexivity |]. split; [reflexivity |].
  split; [reflexivity |].
  split.
  { unfold HeightDisplay.render, heightDisplayProps. cbn.
    destruct (App.heightData a); reflexivity. }
  split; [reflexivity |].
  split.
  { destruct (CameraComponent.wsRef (CameraLifecycle.instance m)) as [ws |];
      [| reflexivity].
    destruct (CameraComponent.ReadyState_eqb (CameraComponent.readyState ws)
                CameraComponent.OPEN); reflexivity. }
  split.
  { intros v k Hv Hk. rewrite Hv, Hk. split; [reflexivity | apply stopStreamAt_nth]. }
  f_equal. f_equal.
  - f_equal.
    destruct (CameraComponent.wsRef (CameraLifecycle.instance m)) as [[[] sent] |];
      reflexivity.
  - destruct (CameraComponent.videoRef (CameraLifecycle.instance m));
      destruct (CameraLifecycle.srcObject m); reflexivity.
  - destruct (CameraComponent.videoRef (CameraLifecycle.instance m));
      destruct (CameraLifecycle.srcObject m); reflexivity.
  - destruct (CameraComponent.wsRef (CameraLifecycle.instance m)) as [[[] sent] |];
      cbn; rewrite ?app_nil_r; reflexivity.
Qed.

















Lemma useSocket_not_open
      (encodeJpeg : CameraComponent.Frame -> Js.number -> list Byte.byte)
      (u : SocketUse) (i : CameraComponent.Instance) :
  CameraComponent.isOpen (CameraComponent.wsRef i) = false ->
  CameraComponent.wsRef (useSocket encodeJpeg u i) = CameraComponent.wsRef i.
Proof.
  intros H. destruct u as [ctx |]; cbn [useSocket].
  - unfold CameraComponent.captureFrame.
    destruct (CameraComponent.videoRef i); [| reflexivity].
    destruct (CameraComponent.wsRef i) as [ws |] eqn:E; [| exact E].
    rewrite H. exact E.
  - unfold CameraComponent.resetSystem.
    destruct (CameraComponent.wsRef i) as [ws |] eqn:E; [| exact E].
    rewrite H. exact E.
Qed.

(** X14. A socket that is not open is never written to: captures and
    resets, in any number and order, leave it as it is.  In particular
    the socket [initializeWebSocket] creates is connecting with nothing
    sent, and nothing is sent on it before it opens. *)
Theorem nothing_sent_before_open
        (encodeJpeg : CameraComponent.Frame -> Js.number -> list Byte.byte)
        (uses : list SocketUse) :
  (forall i,
      CameraComponent.isOpen (CameraComponent.wsRef i) = false ->
      CameraComponent.wsRef (fold_left (fun i u => useSocket encodeJpeg u i) uses i)
      = CameraComponent.wsRef i)
  /\ (forall m,
         CameraComponent.wsRef (CameraLifecycle.instance (CameraLifecycle.initializeWebSocket m))
         = Some {| CameraComponent.readyState := CameraComponent.CONNECTING;
                   CameraComponent.sent := [] |}
         /\ outbox (fold_left (fun i u => useSocket encodeJpeg u i) uses
                      (CameraLifecycle.instance (CameraLifecycle.initializeWebSocket m)))
            = []).
Proof.
  assert (H : forall i,
             CameraComponent.isOpen (CameraComponent.wsRef i) = false ->
             CameraComponent.wsRef (fold_left (fun i u => useSocket encodeJpeg u i) uses i)
             = CameraComponent.wsRef i).
  { induction uses as [| u uses IH]; intros i Hi; [reflexivity |].
    cbn [fold_left]. pose proof (useSocket_not_open encodeJpeg u i Hi) as Hu.
    rewrite IH; [exact Hu | rewrite Hu; exact Hi]. }
  split; [exact H |]. intros m.
  assert (Hnew : CameraComponent.wsRef
                   (CameraLifecycle.instance (CameraLifecycle.initializeWebSocket m))
                 = Some {| CameraComponent.readyState := CameraComponent.CONNECTING;
                           CameraComponent.sent := [] |}).
  { unfold CameraLifecycle.initializeWebSocket.
    destruct (CameraComponent.wsRef (CameraLifecycle.instance m)) as [ws |];
      [destruct (negb (CameraComponent.ReadyState_eqb (CameraComponent.readyState ws)
                         CameraComponent.CLOSED)) |]; reflexivity. }
  split; [exact Hnew |]. unfold outbox. rewrite H; rewrite Hnew; reflexivity.
Qed.

Lemma sameStreams_refl (m : CameraLifecycle.Mounted) : sameStreams m m.
Proof. split; reflexivity. Qed.

Lemma sameStreams_trans (m1 m2 m3 : CameraLifecycle.Mounted) :
  sameStreams m1 m2 -> sameStreams m2 m3 -> sameStreams m1 m3.
Proof. intros [H1 H2] [H3 H4]. split; congruence. Qed.

Lemma sameStreams_withInstance (f : CameraComponent.Instance -> CameraComponent.Instance)
      (m : CameraLifecycle.Mounted) :
  sameStreams (CameraLifecycle.withInstance f m) m.
Proof. split; reflexivity. Qed.

Lemma sameStreams_withTimers (r : option positive) (active : list (positive * nat))
      (next : positive) (pending : list nat) (m : CameraLifecycle.Mounted) :
  sameStreams (CameraLifecycle.withTimers r active next pending m) m.
Proof. split; reflexivity. Qed.

Lemma sameStreams_setTimeout (delay : nat) (m : CameraLifecycle.Mounted) :
  sameStreams (CameraLifecycle.setTimeout delay m) m.
Proof. split; reflexivity. Qed.

Lemma sameStreams_closeSocket (code : nat) (m : CameraLifecycle.Mounted) :
  sameStreams (CameraLifecycle.closeSocket code m) m.
Proof. split; reflexivity. Qed.

Lemma sameStreams_stopDetection (m : CameraLifecycle.Mounted) :
  sameStreams (CameraLifecycle.stopDetection m) m.
Proof.
  unfold CameraLifecycle.stopDetection.
  destruct (CameraLifecycle.captureIntervalRef m); split; reflexivity.
Qed.

Lemma sameStreams_startDetection (m : CameraLifecycle.Mounted) :
  sameStreams (CameraLifecycle.startDetection m) m.
Proof.
  unfold CameraLifecycle.startDetection.
  destruct (CameraLifecycle.captureIntervalRef m); split; reflexivity.
Qed.

Lemma sameStreams_initializeWebSocket (m : CameraLifecycle.Mounted) :
  sameStreams (CameraLifecycle.initializeWebSocket m) m.
Proof.
  unfold CameraLifecycle.initializeWebSocket.
  destruct (CameraComponent.wsRef (CameraLifecycle.instance m)) as [ws |];
    [destruct (CameraComponent.ReadyState_eqb (CameraComponent.readyState ws)
                 CameraComponent.CLOSED) |];
    split; reflexivity.
Qed.

Ltac same_streams :=
  repeat first
    [ apply sameStreams_refl
    | match goal with
      | |- sameStreams (match ?d with _ => _ end) _ => destruct d
      | |- sameStreams (if ?d then _ else _) _ => destruct d
      | |- sameStreams (CameraLifecycle.withInstance _ _) _ =>
          eapply sameStreams_trans; [apply sameStreams_withInstance |]
      | |- sameStreams (CameraLifecycle.withTimers _ _ _ _ _) _ =>
          eapply sameStreams_trans; [apply sameStreams_withTimers |]
      | |- sameStreams (CameraLifecycle.setTimeout _ _) _ =>
          eapply sameStreams_trans; [apply sameStreams_setTimeout |]
      | |- sameStreams (CameraLifecycle.closeSocket _ _) _ =>
          eapply sameStreams_trans; [apply sameStreams_closeSocket |]
      | |- sameStreams (CameraLifecycle.stopDetection _) _ =>
          eapply sameStreams_trans; [apply sameStreams_stopDetection |]
      | |- sameStreams (CameraLifecycle.startDetection _) _ =>
          eapply sameStreams_trans; [apply sameStreams_startDetection |]
      | |- sameStreams (CameraLifecycle.initializeWebSocket _) _ =>
          eapply sameStreams_trans; [apply sameStreams_initializeWebSocket |]
      end ].

Lemma unattached_same (k : nat) (s : CameraLifecycle.MediaStream)
      (m' m : CameraLifecycle.Mounted) :
  sameStreams m' m -> unattached k s m -> unattached k s m'.
Proof. unfold unattached. intros [-> ->]. exact (fun H => H). Qed.

Lemma stopStreamAt_length (j : nat) (streams : list CameraLifecycle.MediaStream) :
  length (CameraLifecycle.stopStreamAt j streams) = length streams.
Proof.
  revert j. induction streams as [| s rest IH]; intros [| j]; cbn; auto.
Qed.

Lemma streamsAfterStop_unattached (k : nat) (s : CameraLifecycle.MediaStream)
      (m : CameraLifecycle.Mounted) :
  unattached k s m ->
  nth_error (streamsAfterStop m) k = Some s /\ k < length (streamsAfterStop m).
Proof.
  unfold unattached, streamsAfterStop. intros [Hn Hs].
  assert (Hk : k < length (CameraLifecycle.streams m)).
  { apply nth_error_Some. rewrite Hn. discriminate. }
  destruct (CameraComponent.videoRef (CameraLifecycle.instance m));
    destruct (CameraLifecycle.srcObject m) as [j |]; try (split; assumption).
  rewrite stopStreamAt_length, stopStreamAt_other; [split; assumption |].
  intros ->. apply Hs. reflexivity.
Qed.

Lemma stopStream_streams (m : CameraLifecycle.Mounted) :
  CameraLifecycle.streams (CameraLifecycle.stopStream m) = streamsAfterStop m
  /\ CameraLifecycle.srcObject (CameraLifecycle.stopStream m) = CameraLifecycle.srcObject m
  /\ CameraComponent.videoRef (CameraLifecycle.instance (CameraLifecycle.stopStream m))
     = CameraComponent.videoRef (CameraLifecycle.instance m).
Proof.
  unfold CameraLifecycle.stopStream, streamsAfterStop.
  destruct (CameraComponent.videoRef (CameraLifecycle.instance m)) eqn:Ev;
    destruct (CameraLifecycle.srcObject m) eqn:Es; cbn; rewrite ?Ev, ?Es;
    repeat split; reflexivity.
Qed.

(** The streams after [initializeCamera]. *)
Lemma initializeCamera_streams (granted : option CameraLifecycle.MediaStream) (pg : Page) :
  let after := snd (Wired.initializeCamera granted pg) in
  CameraLifecycle.streams after
  = streamsAfterStop (snd pg) ++ match granted with Some stream => [stream] | None => [] end
  /\ CameraLifecycle.srcObject after
     = match granted, CameraComponent.videoRef (CameraLifecycle.instance (snd pg)) with
       | Some _, Some _ => Some (length (streamsAfterStop (snd pg)))
       | _, _ => CameraLifecycle.srcObject (snd pg)
       end.
Proof.
  destruct pg as [a m]. cbn [snd].
  destruct (stopStream_streams m) as [Hss [Hsrc Hv]].
  unfold Wired.initializeCamera. unfold_lifecycle. cbn [fst snd].
  destruct granted as [stream |]; cbn [fst snd].
  - cbn [CameraLifecycle.instance CameraLifecycle.withStreams CameraLifecycle.streams].
    rewrite Hv.
    destruct (CameraComponent.videoRef (CameraLifecycle.instance m)) as [v |].
    + destruct (sameStreams_initializeWebSocket
                  (CameraLifecycle.withInstance
                     (CameraComponent.withVideo (Some (CameraComponent.play v)))
                     (CameraLifecycle.withStreams
                        (CameraLifecycle.streams (CameraLifecycle.stopStream m) ++ [stream])
                        (Some (length (CameraLifecycle.streams (CameraLifecycle.stopStream m))))
                        (CameraLifecycle.withStreams
                           (CameraLifecycle.streams (CameraLifecycle.stopStream m) ++ [stream])
                           (CameraLifecycle.srcObject (CameraLifecycle.stopStream m))
                           (CameraLifecycle.stopStream m))))) as [E1 E2].
      cbn [CameraLifecycle.withInstance CameraLifecycle.streams CameraLifecycle.srcObject].
      rewrite E1, E2. cbn. rewrite Hss. split; reflexivity.
    + destruct (sameStreams_initializeWebSocket
                  (CameraLifecycle.withStreams
                     (CameraLifecycle.streams (CameraLifecycle.stopStream m) ++ [stream])
                     (CameraLifecycle.srcObject (CameraLifecycle.stopStream m))
                     (CameraLifecycle.stopStream m))) as [E1 E2].
      cbn [CameraLifecycle.withInstance CameraLifecycle.streams CameraLifecycle.srcObject].
      rewrite E1, E2. cbn. rewrite Hss, Hsrc. split; reflexivity.
  - cbn. rewrite Hss, Hsrc, app_nil_r.
    destruct (CameraComponent.videoRef (CameraLifecycle.instance m)); split; reflexivity.
Qed.

Lemma initializeCamera_unattached (granted : option CameraLifecycle.MediaStream)
      (pg : Page) (k : nat) (s : CameraLifecycle.MediaStream) :
  unattached k s (snd pg) ->
  unattached k s (snd (Wired.initializeCamera granted pg)).
Proof.
  intros H. destruct (initializeCamera_streams granted pg) as [Hs Hsrc].
  destruct (streamsAfterStop_unattached k s (snd pg) H) as [Hn Hk].
  unfold unattached. rewrite Hs, Hsrc. split.
  - rewrite nth_error_app1 by exact Hk. exact Hn.
  - destruct granted; [| exact (proj2 H)].
    destruct (CameraComponent.videoRef (CameraLifecycle.instance (snd pg)));
      [| exact (proj2 H)].
    intros E. injection E as E. lia.
Qed.

Lemma step_unattached (encodeJpeg : CameraComponent.Frame -> Js.number -> list Byte.byte)
      (e : Wired.Event) (pg : Page) (k : nat) (s : CameraLifecycle.MediaStream) :
  unattached k s (snd pg) -> unattached k s (snd (Wired.step encodeJpeg e pg)).
Proof.
  intros H.
  assert (Hsame : forall m', sameStreams m' (snd pg) -> unattached k s m').
  { intros m' Hs. exact (unattached_same k s m' (snd pg) Hs H). }
  destruct e as [| data | code | | | | granted | | granted | | fresh | | ctx | rs];
    cbn [Wired.step].
  - (* WsOpen *)
    apply Hsame. destruct pg as [a m]. unfold_lifecycle. cbn [fst snd]. same_streams.
  - (* WsMessage *)
    apply Hsame. destruct pg as [a m]. unfold_lifecycle. cbn [fst snd]. same_streams.
  - (* WsClose *)
    apply Hsame. destruct pg as [a m]. unfold_lifecycle. cbn [fst snd].
    destruct (negb (code =? 1000)); cbn [fst snd]; same_streams.
  - (* WsError *)
    apply Hsame. destruct pg as [a m]. unfold_lifecycle. cbn [fst snd]. same_streams.
  - (* ClickStart *)
    apply Hsame. destruct pg as [a m]. unfold_lifecycle. cbn [fst snd]. same_streams.
  - (* ClickStop *)
    destruct pg as [a m]. rewrite handleStopClick_unfold. cbn [snd] in *.
    destruct (streamsAfterStop_unattached k s m H) as [Hn _].
    unfold unattached, streamsAfterStop in *.
    cbn [CameraLifecycle.streams CameraLifecycle.srcObject].
    destruct (CameraComponent.videoRef (CameraLifecycle.instance m));
      destruct (CameraLifecycle.srcObject m);
      (split; [exact Hn | first [exact (proj2 H) | discriminate]]).
  - (* ClickRetry *)
    apply initializeCamera_unattached, H.
  - (* ClickResetCalibration *)
    apply Hsame. destruct pg as [a m]. unfold_lifecycle. cbn [fst snd]. same_streams.
  - (* EffectRuns *)
    destruct (CameraComponent.hasInteracted
                (CameraComponent.state (CameraLifecycle.instance (snd pg))));
      [apply initializeCamera_unattached |]; exact H.
  - (* EffectCleanup *)
    destruct pg as [a m]. unfold_lifecycle. cbn [fst snd] in *.
    match goal with
    | |- unattached _ _ (CameraLifecycle.stopStream ?x) =>
        assert (Hx : unattached k s x) by (apply Hsame; same_streams);
        destruct (stopStream_streams x) as [Hs [Hsrc _]];
        destruct (streamsAfterStop_unattached k s x Hx) as [Hn _];
        unfold unattached; rewrite Hs, Hsrc; split; [exact Hn | exact (proj2 Hx)]
    end.
  - (* Commit *)
    destruct pg as [a m]. unfold_lifecycle. cbn [fst snd] in *.
    unfold unattached in *.
    destruct (CameraLifecycle.render (CameraComponent.state (CameraLifecycle.instance m)));
      try destruct (CameraComponent.videoRef (CameraLifecycle.instance m));
      cbn [CameraLifecycle.streams CameraLifecycle.srcObject CameraLifecycle.withInstance
           CameraLifecycle.withStreams];
      (split; [exact (proj1 H) | first [exact (proj2 H) | discriminate]]).
  - (* ReconnectFires *)
    apply Hsame. destruct pg as [a m]. cbn [fst snd].
    destruct (CameraLifecycle.timeouts m); cbn [fst snd]; same_streams.
  - (* CaptureFires *)
    apply Hsame. destruct pg as [a m]. cbn [fst snd].
    destruct (CameraLifecycle.intervals m); cbn [fst snd]; same_streams.
  - (* SocketBecomes *)
    apply Hsame. destruct pg as [a m]. cbn [fst snd]. same_streams.
Qed.

(** X15. A stream that the video element does not hold is out of the
    component's reach: whatever happens afterwards, it is never
    stopped (its tracks stay as they were) and never attached. *)
Theorem unattached_stream_is_never_stopped
        (encodeJpeg : CameraComponent.Frame -> Js.number -> list Byte.byte)
        (es : list Wired.Event) (pg : Page) (k : nat) (s : CameraLifecycle.MediaStream)
        (Hun : unattached k s (snd pg)) :
  nth_error (CameraLifecycle.streams (snd (Wired.run encodeJpeg es pg))) k = Some s
  /\ CameraLifecycle.srcObject (snd (Wired.run encodeJpeg es pg)) <> Some k.
Proof.
  revert pg Hun. induction es as [| e es IH]; intros pg Hun; [exact Hun |].
  cbn [Wired.run fold_left]. apply IH. apply step_unattached, Hun.
Qed.

(** X16. When [initializeCamera] runs while no video element is
    mounted (the Retry button stands on the error screen, which has
    none), the stream the user grants is attached to nothing: it
    stays live and out of reach, while the error is cleared and a new
    socket is connecting. *)
Theorem retry_without_video_leaks_stream
        (stream : CameraLifecycle.MediaStream) (pg : Page)
        (Hno : CameraComponent.videoRef (snd (client pg)) = None)
        (Hsrc : CameraLifecycle.srcObject (snd pg) = None) :
  let after := Wired.initializeCamera (Some stream) pg in
  unattached (length (CameraLifecycle.streams (snd pg))) stream (snd after)
  /\ CameraLifecycle.srcObject (snd after) = None
  /\ CameraComponent.error (snd (session (client after))) = None
  /\ CameraComponent.wsRef (snd (client after))
     = Some {| CameraComponent.readyState := CameraComponent.CONNECTING;
               CameraComponent.sent := [] |}
  /\ fst after = fst pg.
Proof.
  intros after. subst after. unfold client in Hno. cbn [snd] in Hno.
  destruct (initializeCamera_streams (Some stream) pg) as [Hs Hsrc'].
  cbn zeta in Hs, Hsrc'. rewrite Hno, Hsrc in Hsrc'.
  assert (Hstop : streamsAfterStop (snd pg) = CameraLifecycle.streams (snd pg)).
  { unfold streamsAfterStop. rewrite Hno. reflexivity. }
  rewrite Hstop in Hs.
  split; [| split; [exact Hsrc' |]].
  - unfold unattached. rewrite Hs, Hsrc'. split; [| discriminate].
    rewrite nth_error_app2 by apply le_n. rewrite Nat.sub_diag. reflexivity.
  - destruct pg as [a m]. unfold Wired.initializeCamera. unfold_lifecycle.
    unfold client, session. cbn [fst snd] in *.
    destruct (stopStream_streams m) as [_ [_ Hv]].
    cbn [CameraLifecycle.instance CameraLifecycle.withStreams]. rewrite Hv, Hno.
    unfold CameraLifecycle.initializeWebSocket.
    repeat match goal with
           | |- context [match ?d with _ => _ end] => destruct d
           end; repeat split; reflexivity.
Qed.

Lemma retry_without_video_leaks_stream_witness :
  CameraLifecycle.render (snd (session (client error_page)))
  = CameraLifecycle.ErrorScreen connectionFailed
  /\ CameraComponent.videoRef (snd (client error_page)) = None
  /\ CameraLifecycle.srcObject (snd error_page) = None
  /\ unattached 1 [true; true]
       (snd (Wired.initializeCamera (Some [true; true]) error_page)).
Proof.
  split; [reflexivity |]. split; [reflexivity |]. split; [reflexivity |].
  exact (proj1 (retry_without_video_leaks_stream [true; true] error_page eq_refl eq_refl)).
Defined.

Lemma unattached_stream_is_never_stopped_witness :
  unattached 1 [true; true] (snd (Wired.initializeCamera (Some [true; true]) error_page))
  /\ nth_error
       (CameraLifecycle.streams
          (snd (Wired.run jpeg_stub
                  [Wired.WsOpen; Wired.ClickStop; Wired.EffectCleanup; Wired.ClickStart;
                   Wired.EffectRuns (Some [true])]
                  (Wired.initializeCamera (Some [true; true]) error_page)))) 1
     = Some [true; true].
Proof.
  assert (H : unattached 1 [true; true]
                (snd (Wired.initializeCamera (Some [true; true]) error_page))).
  { split; [reflexivity | discriminate]. }
  split; [exact H |].
  exact (proj1 (unattached_stream_is_never_stopped jpeg_stub _ _ 1 [true; true] H)).
Defined.

(** ** Captures in a row *)

Lemma captureFrame_keeps (encodeJpeg : CameraComponent.Frame -> Js.number -> list Byte.byte)
      (ctx : bool) (i : CameraComponent.Instance) :
  CameraComponent.state (CameraComponent.captureFrame encodeJpeg ctx i)
  = CameraComponent.state i
  /\ captured encodeJpeg ctx (CameraComponent.captureFrame encodeJpeg ctx i)
     = captured encodeJpeg ctx i.
Proof.
  unfold captured, openAndSized, CameraComponent.captureFrame.
  destruct (CameraComponent.videoRef i) as [v |] eqn:Ev; [| rewrite Ev; split; reflexivity].
  destruct (CameraComponent.wsRef i) as [ws |] eqn:Ew;
    [| rewrite Ev, Ew; split; reflexivity].
  destruct (CameraComponent.isOpen (Some ws)) eqn:Eo; cbn [negb];
    [| rewrite Ev, Ew, Eo; split; reflexivity].
  assert (Hplay : forall v',
             v' = (if CameraComponent.paused v || CameraComponent.ended v
                   then CameraComponent.play v else v) ->
             CameraComponent.videoWidth v' = CameraComponent.videoWidth v
             /\ CameraComponent.videoHeight v' = CameraComponent.videoHeight v
             /\ CameraComponent.currentFrame v' = CameraComponent.currentFrame v).
  { intros v' ->. destruct (CameraComponent.paused v || CameraComponent.ended v);
      repeat split; reflexivity. }
  destruct (Hplay _ eq_refl) as [Hw [Hh Hf]].
  destruct ((0 <? CameraComponent.videoWidth
                    (if CameraComponent.paused v || CameraComponent.ended v
                     then CameraComponent.play v else v))
            && (0 <? CameraComponent.videoHeight
                       (if CameraComponent.paused v || CameraComponent.ended v
                        then CameraComponent.play v else v))) eqn:Ed;
    [destruct ctx |];
    cbn [CameraComponent.state CameraComponent.withWs CameraComponent.withVideo
         CameraComponent.videoRef CameraComponent.wsRef CameraComponent.isOpen
         CameraComponent.send CameraComponent.readyState];
    (split; [reflexivity |]);
    change (CameraComponent.ReadyState_eqb (CameraComponent.readyState ws)
              CameraComponent.OPEN) with (CameraComponent.isOpen (Some ws));
    rewrite ?Ew, ?Eo, ?Ed, ?Hf; cbn [andb];
    rewrite <- Hw, <- Hh, Ed; reflexivity.
Qed.

Lemma captureFrame_outbox
      (encodeJpeg : CameraComponent.Frame -> Js.number -> list Byte.byte)
      (ctx : bool) (i : CameraComponent.Instance) :
  outbox (CameraComponent.captureFrame encodeJpeg ctx i)
  = outbox i ++ captured encodeJpeg ctx i.
Proof.
  unfold captured, openAndSized, CameraComponent.captureFrame, outbox.
  destruct (CameraComponent.videoRef i) as [v |] eqn:Ev;
    [| rewrite app_nil_r; reflexivity].
  destruct (CameraComponent.wsRef i) as [ws |] eqn:Ew;
    [| cbn; rewrite Ew; reflexivity].
  destruct (CameraComponent.isOpen (Some ws)) eqn:Eo; cbn [negb andb];
    [| rewrite Ew, app_nil_r; reflexivity].
  assert (Hplay : forall v',
             v' = (if CameraComponent.paused v || CameraComponent.ended v
                   then CameraComponent.play v else v) ->
             CameraComponent.videoWidth v' = CameraComponent.videoWidth v
             /\ CameraComponent.videoHeight v' = CameraComponent.videoHeight v
             /\ CameraComponent.currentFrame v' = CameraComponent.currentFrame v).
  { intros v' ->. destruct (CameraComponent.paused v || CameraComponent.ended v);
      repeat split; reflexivity. }
  destruct (Hplay _ eq_refl) as [Hw [Hh Hf]]. rewrite Hw, Hh, Hf.
  destruct ((0 <? CameraComponent.videoWidth v) && (0 <? CameraComponent.videoHeight v));
    cbn [andb]; [| cbn; rewrite Ew, app_nil_r; reflexivity].
  destruct ctx; [| cbn; rewrite Ew, app_nil_r; reflexivity].
  cbn [CameraComponent.wsRef CameraComponent.withWs CameraComponent.sent
       CameraComponent.send].
  rewrite data_url_payload, (stringify_image _ (base64_chars _)). reflexivity.
Qed.

Lemma concat_repeat_comm (l : list string) (n : nat) :
  concat (repeat l n) ++ l = concat (repeat l (S n)).
Proof.
  induction n as [| n IH]; cbn in *; [rewrite app_nil_r; reflexivity |].
  rewrite <- app_assoc, IH. reflexivity.
Qed.

Lemma length_concat_repeat (l : list string) (n : nat) :
  length (concat (repeat l n)) = n * length l.
Proof.
  induction n as [| n IH]; [reflexivity |].
  cbn [repeat concat]. rewrite length_app, IH. reflexivity.
Qed.

(** X17. A capture never changes what the component renders, and it
    leaves in place whatever decides that it sends; so [n] captures in
    a row send [n] times what one sends: [n] image messages when the
    socket is open, the video has a size and the canvas gives a
    context, none otherwise. *)
Theorem captures_in_a_row
        (encodeJpeg : CameraComponent.Frame -> Js.number -> list Byte.byte)
        (ctx : bool) (n : nat) (i : CameraComponent.Instance) :
  CameraComponent.state (captures encodeJpeg ctx n i) = CameraComponent.state i
  /\ outbox (captures encodeJpeg ctx n i)
     = outbox i ++ concat (repeat (captured encodeJpeg ctx i) n)
  /\ length (outbox (captures encodeJpeg ctx n i))
     = length (outbox i) + (if openAndSized i && ctx then n else 0).
Proof.
  assert (H : CameraComponent.state (captures encodeJpeg ctx n i) = CameraComponent.state i
              /\ captured encodeJpeg ctx (captures encodeJpeg ctx n i)
                 = captured encodeJpeg ctx i
              /\ outbox (captures encodeJpeg ctx n i)
                 = outbox i ++ concat (repeat (captured encodeJpeg ctx i) n)).
  { induction n as [| n [IHs [IHc IHo]]].
    - cbn. rewrite app_nil_r. repeat split; reflexivity.
    - cbn [captures].
      destruct (captureFrame_keeps encodeJpeg ctx (captures encodeJpeg ctx n i))
        as [Hs Hc].
      pose proof (captureFrame_outbox encodeJpeg ctx (captures encodeJpeg ctx n i)) as Ho.
      rewrite Hs, Hc, Ho, IHs, IHc, IHo. repeat split; try reflexivity.
      rewrite <- app_assoc. f_equal. apply concat_repeat_comm. }
  destruct H as [Hs [_ Ho]]. split; [exact Hs |]. split; [exact Ho |].
  rewrite Ho, length_app, length_concat_repeat. f_equal.
  unfold captured. destruct (CameraComponent.videoRef i) as [v |] eqn:Ev.
  - destruct (openAndSized i && ctx); cbn [length]; lia.
  - assert (Hf : openAndSized i && ctx = false).
    { unfold openAndSized. rewrite Ev, andb_false_r. reflexivity. }
    rewrite Hf. cbn [length]. lia.
Qed.

(** ** The status line of the page *)

(** X18. The status line under the camera reads Detecting after every
    [height_update]; after [calibrating], [info] or [no_person] it reads
    Ready when the page is calibrated and Calibrating when it is not
    (a [calibrating] message does not clear the calibrated flag);
    other messages leave it as it is. *)
Theorem status_line_after_message (m : ServerMessage) (c : App.Client) :
  statusText (fst (App.onmessage m c))
  = if String.eqb (type m) "height_update" then "🔴 Detecting"
    else if String.eqb (type m) "calibrating" || String.eqb (type m) "info"
            || String.eqb (type m) "no_person"
    then (if calibrated c then "🟢 Ready" else "🟡 Calibrating")
    else statusText (fst c).
Proof.
  destruct c as [a i]. unfold calibrated. cbn [fst].
  destruct (onmessage_cases m a i)
    as [[Ht E] | [[Ht E] | [[[Ht | Ht] E] | [[Ht E] | [Ht E]]]]]; rewrite E; cbn [fst].
  - rewrite Ht. reflexivity.
  - rewrite Ht. unfold statusText, App.handleHeightUpdate.
    destruct (App.positiveHeight (height m)); reflexivity.
  - rewrite Ht. reflexivity.
  - rewrite Ht. reflexivity.
  - rewrite Ht. reflexivity.
  - unfold known_type in Ht. rewrite !orb_false_iff in Ht.
    destruct Ht as [[[[H1 H2] H3] H4] H5]. rewrite H1, H2, H3, H4. reflexivity.
Qed.

(** ** The manual calibration form *)


(** X20. With the custom object chosen and the custom height left
    empty, [parseFloat] gives NaN, NaN is not [<= 0], and the request
    goes out with NaN as the height in cm. *)
Theorem custom_without_height_posts_nan (parseFloat : string -> option Js.number)
        (s : CalibrationComponent.State)
        (Hnan : parseFloat "" = None)
        (Hcustom : CalibrationComponent.referenceObject s = "custom")
        (Hempty : CalibrationComponent.customHeight s = "")
        (Hfilled : CalibrationComponent.referenceHeightPixels s <> "")
        (Hpixels : CalibrationComponent.nonPositive
                     (parseFloat (CalibrationComponent.referenceHeightPixels s)) = false) :
  snd (CalibrationComponent.handleCalibrate parseFloat s)
  = [ {| CalibrationComponent.url := "http://localhost:8000/calibrate";
         CalibrationComponent.reference_height_cm := None;
         CalibrationComponent.reference_height_pixels :=
           parseFloat (CalibrationComponent.referenceHeightPixels s) |} ].
Proof.
  unfold CalibrationComponent.handleCalibrate.
  apply String.eqb_neq in Hfilled. rewrite Hfilled, Hpixels, Hcustom, Hempty, Hnan.
  reflexivity.
Qed.

Lemma custom_without_height_posts_nan_witness :
  parseFloat_stub "" = None
  /\ snd (CalibrationComponent.handleCalibrate parseFloat_stub custom_form_without_height)
     = [ {| CalibrationComponent.url := "http://localhost:8000/calibrate";
            CalibrationComponent.reference_height_cm := None;
            CalibrationComponent.reference_height_pixels := Some 100%Q |} ].
Proof.
  split; [reflexivity |].
  apply (custom_without_height_posts_nan parseFloat_stub custom_form_without_height);
    try reflexivity. discriminate.
Defined.

(** X21. For the four reference objects that have a height of their
    own the second check never fails: once the pixel height is filled
    in and not [<= 0], the request goes out with the height of the
    table. *)
Theorem builtin_object_posts_table_height (parseFloat : string -> option Js.number)
        (s : CalibrationComponent.State)
        (Hkey : In (CalibrationComponent.referenceObject s) builtinObjects)
        (Hfilled : CalibrationComponent.referenceHeightPixels s <> "")
        (Hpixels : CalibrationComponent.nonPositive
                     (parseFloat (CalibrationComponent.referenceHeightPixels s)) = false) :
  exists name h,
    CalibrationComponent.lookup (CalibrationComponent.referenceObject s)
      CalibrationComponent.referenceObjects = Some (name, h)
    /\ (0 < h)%Q
    /\ snd (CalibrationComponent.handleCalibrate parseFloat s)
       = [ {| CalibrationComponent.url := "http://localhost:8000/calibrate";
              CalibrationComponent.reference_height_cm := Some h;
              CalibrationComponent.reference_height_pixels :=
                parseFloat (CalibrationComponent.referenceHeightPixels s) |} ].
Proof.
  unfold CalibrationComponent.handleCalibrate.
  apply String.eqb_neq in Hfilled. rewrite Hfilled, Hpixels. cbn [orb].
  unfold builtinObjects in Hkey. cbn [In] in Hkey.
  destruct Hkey as [<- | [<- | [<- | [<- | []]]]];
    eexists; eexists; (split; [reflexivity |]); (split; [reflexivity |]); reflexivity.
Qed.

Lemma builtin_object_posts_table_height_witness :
  In (CalibrationComponent.referenceObject
        (CalibrationComponent.setReferenceHeightPixels "100"
           CalibrationComponent.initialState)) builtinObjects
  /\ exists name h,
      CalibrationComponent.lookup "credit_card" CalibrationComponent.referenceObjects
      = Some (name, h)
      /\ (0 < h)%Q
      /\ snd (CalibrationComponent.handleCalibrate parseFloat_stub
                (CalibrationComponent.setReferenceHeightPixels "100"
                   CalibrationComponent.initialState))
         = [ {| CalibrationComponent.url := "http://localhost:8000/calibrate";
                CalibrationComponent.reference_height_cm := Some h;
                CalibrationComponent.reference_height_pixels := Some 100%Q |} ].
Proof.
  split; [left; reflexivity |].
  apply (builtin_object_posts_table_height parseFloat_stub
           (CalibrationComponent.setReferenceHeightPixels "100"
              CalibrationComponent.initialState)).
  - left. reflexivity.
  - discriminate.
  - reflexivity.
Defined.

Lemma handleCalibrate_posted (parseFloat : string -> option Js.number)
      (s : CalibrationComponent.State) :
  snd (CalibrationComponent.handleCalibrate parseFloat s) <> [] ->
  fst (CalibrationComponent.handleCalibrate parseFloat s)
  = CalibrationComponent.setSuccess None
      (CalibrationComponent.setError None
         (CalibrationComponent.setIsCalibrating true s)).
Proof.
  unfold CalibrationComponent.handleCalibrate.
  destruct (String.eqb (CalibrationComponent.referenceHeightPixels s) ""
            || CalibrationComponent.nonPositive
                 (parseFloat (CalibrationComponent.referenceHeightPixels s)));
    [cbn; congruence |].
  destruct (if String.eqb (CalibrationComponent.referenceObject s) "custom"
            then Some (parseFloat (CalibrationComponent.customHeight s))
            else option_map (fun v => Some (snd v))
                   (CalibrationComponent.lookup (CalibrationComponent.referenceObject s)
                      CalibrationComponent.referenceObjects)) as [h |];
    [| cbn; congruence].
  destruct (CalibrationComponent.nonPositive h); [cbn; congruence |].
  intros _. reflexivity.
Qed.

(** X22. Once a calibration request is out, its outcome always ends
    the calibrating state and leaves exactly one message on the form:
    the success message when the reply's status is [calibrated], and
    then the page is marked calibrated; an error message otherwise
    (another status, or a failed request), and then the page is left
    as it was. *)
Theorem calibration_reply (parseFloat : string -> option Js.number)
        (s : CalibrationComponent.State) (a : App.State)
        (r : CalibrationComponent.Reply)
        (Hposted : snd (CalibrationComponent.handleCalibrate parseFloat s) <> []) :
  let waiting := fst (CalibrationComponent.handleCalibrate parseFloat s) in
  let done := CalibrationComponent.handleReply App.handleCalibrationComplete r (a, waiting) in
  CalibrationComponent.isCalibrating waiting = true
  /\ CalibrationComponent.isCalibrating (snd done) = false
  /\ (r = CalibrationComponent.Responded "calibrated" ->
      CalibrationComponent.success (snd done) = Some "Calibration completed successfully!"
      /\ CalibrationComponent.error (snd done) = None
      /\ App.isCalibrated (fst done) = true)
  /\ (r <> CalibrationComponent.Responded "calibrated" ->
      CalibrationComponent.success (snd done) = None
      /\ (exists message, CalibrationComponent.error (snd done) = Some message)
      /\ fst done = a).
Proof.
  intros waiting done.
  assert (Hw : waiting = CalibrationComponent.setSuccess None
                           (CalibrationComponent.setError None
                              (CalibrationComponent.setIsCalibrating true s))).
  { exact (handleCalibrate_posted parseFloat s Hposted). }
  subst done. rewrite Hw. unfold CalibrationComponent.handleReply, React.andThen,
    React.self, React.parent.
  split; [reflexivity |].
  destruct r as [status |].
  - destruct (String.eqb_spec status "calibrated") as [-> | Hne]; cbn.
    + split; [reflexivity |]. split; [intros _; repeat split |].
      intros H. exfalso. apply H. reflexivity.
    + split; [reflexivity |]. split.
      * intros H. injection H as H. contradiction.
      * intros _. split; [reflexivity |]. split; [eexists; reflexivity | reflexivity].
  - cbn. split; [reflexivity |]. split; [discriminate |].
    intros _. split; [reflexivity |]. split; [eexists; reflexivity | reflexivity].
Qed.

Lemma calibration_reply_witness :
  snd (CalibrationComponent.handleCalibrate parseFloat_stub
         (CalibrationComponent.setReferenceHeightPixels "100"
            CalibrationComponent.initialState)) <> []
  /\ App.isCalibrated
       (fst (CalibrationComponent.handleReply App.handleCalibrationComplete
               (CalibrationComponent.Responded "calibrated")
               (App.initialState,
                fst (CalibrationComponent.handleCalibrate parseFloat_stub
                       (CalibrationComponent.setReferenceHeightPixels "100"
                          CalibrationComponent.initialState))))) = true.
Proof.
  assert (H : snd (CalibrationComponent.handleCalibrate parseFloat_stub
                     (CalibrationComponent.setReferenceHeightPixels "100"
                        CalibrationComponent.initialState)) <> []) by discriminate.
  split; [exact H |].
  apply (calibration_reply parseFloat_stub
           (CalibrationComponent.setReferenceHeightPixels "100"
              CalibrationComponent.initialState)
           App.initialState (CalibrationComponent.Responded "calibrated") H).
  reflexivity.
Defined.

(** ** Getting the camera *)

Lemma initializeWebSocket_instance (m : CameraLifecycle.Mounted) :
  CameraComponent.state (CameraLifecycle.instance (CameraLifecycle.initializeWebSocket m))
  = CameraComponent.state (CameraLifecycle.instance m)
  /\ CameraComponent.videoRef (CameraLifecycle.instance (CameraLifecycle.initializeWebSocket m))
     = CameraComponent.videoRef (CameraLifecycle.instance m)
  /\ CameraComponent.wsRef (CameraLifecycle.instance (CameraLifecycle.initializeWebSocket m))
     = Some {| CameraComponent.readyState := CameraComponent.CONNECTING;
               CameraComponent.sent := [] |}.
Proof.
  unfold CameraLifecycle.initializeWebSocket.
  destruct (CameraComponent.wsRef (CameraLifecycle.instance m)) as [ws |];
    [destruct (negb (CameraComponent.ReadyState_eqb (CameraComponent.readyState ws)
                       CameraComponent.CLOSED)) |]; repeat split; reflexivity.
Qed.

Lemma stopStream_instance (m : CameraLifecycle.Mounted) :
  CameraLifecycle.instance (CameraLifecycle.stopStream m) = CameraLifecycle.instance m.
Proof.
  unfold CameraLifecycle.stopStream.
  destruct (CameraComponent.videoRef (CameraLifecycle.instance m));
    destruct (CameraLifecycle.srcObject m); reflexivity.
Qed.

(** X23. When the camera is refused, the component and the page both
    hold the camera error, the control panel reads Camera Error in
    both cells and a started component renders the error screen; no
    socket is created or closed and no stream is added (the stream the
    video element held has been stopped before the request). *)
Theorem camera_denied (pg : Page) :
  let denied := Wired.initializeCamera None pg in
  CameraComponent.error (snd (session (client denied))) = Some cameraDenied
  /\ App.cameraError (fst denied) = Some cameraDenied
  /\ ControlPanel.getCalibrationStatus (controlPanelProps (fst denied)) = cameraErrorCell
  /\ ControlPanel.getDetectionStatus (controlPanelProps (fst denied)) = cameraErrorCell
  /\ (CameraComponent.hasInteracted (snd (session (client pg))) = true ->
      CameraLifecycle.render (snd (session (client denied)))
      = CameraLifecycle.ErrorScreen cameraDenied)
  /\ CameraComponent.wsRef (snd (client denied)) = CameraComponent.wsRef (snd (client pg))
  /\ CameraLifecycle.closeCalls (snd denied) = CameraLifecycle.closeCalls (snd pg)
  /\ CameraLifecycle.streams (snd denied) = streamsAfterStop (snd pg)
  /\ CameraLifecycle.srcObject (snd denied) = CameraLifecycle.srcObject (snd pg).
Proof.
  destruct pg as [a m]. intros denied.
  destruct (initializeCamera_streams None (a, m)) as [Hs Hsrc].
  cbn zeta in Hs, Hsrc. rewrite app_nil_r in Hs. fold denied in Hs, Hsrc.
  assert (Hd : denied = (App.handleCameraError cameraDenied a,
                         CameraLifecycle.withInstance
                           (CameraComponent.setError (Some cameraDenied))
                           (CameraLifecycle.stopStream m))).
  { reflexivity. }
  assert (Hi : CameraLifecycle.instance (snd denied)
               = CameraComponent.setError (Some cameraDenied) (CameraLifecycle.instance m)).
  { rewrite Hd. cbn [snd CameraLifecycle.withInstance CameraLifecycle.instance].
    rewrite stopStream_instance. reflexivity. }
  assert (Hc : CameraLifecycle.closeCalls (snd denied) = CameraLifecycle.closeCalls m).
  { rewrite Hd. cbn [snd]. unfold CameraLifecycle.stopStream.
    destruct (CameraComponent.videoRef (CameraLifecycle.instance m));
      destruct (CameraLifecycle.srcObject m); reflexivity. }
  unfold client, session. cbn [fst snd]. rewrite Hi.
  split; [reflexivity |].
  split; [rewrite Hd; reflexivity |].
  split; [apply control_panel_cells; rewrite Hd; reflexivity |].
  split; [apply control_panel_cells; rewrite Hd; reflexivity |].
  split.
  { intros Hstart. unfold CameraLifecycle.render. cbn. rewrite Hstart. reflexivity. }
  split; [reflexivity |]. split; [exact Hc |]. split; [exact Hs | exact Hsrc].
Qed.

(** X24. When the camera is granted while the video element is
    mounted, the new stream becomes the stream of the element, live as
    granted, after the stream it held before has had its tracks
    stopped; the error of the component is cleared, a new socket is
    connecting, and the page is not touched. *)
Theorem camera_granted (stream : CameraLifecycle.MediaStream) (pg : Page)
        (v : CameraComponent.Video)
        (Hvideo : CameraComponent.videoRef (snd (client pg)) = Some v) :
  let granted := Wired.initializeCamera (Some stream) pg in
  CameraLifecycle.streams (snd granted) = streamsAfterStop (snd pg) ++ [stream]
  /\ CameraLifecycle.srcObject (snd granted) = Some (length (CameraLifecycle.streams (snd pg)))
  /\ nth_error (CameraLifecycle.streams (snd granted))
       (length (CameraLifecycle.streams (snd pg))) = Some stream
  /\ (forall k,
         CameraLifecycle.srcObject (snd pg) = Some k ->
         nth_error (CameraLifecycle.streams (snd granted)) k
         = option_map CameraLifecycle.stopTracks
             (nth_error (CameraLifecycle.streams (snd pg)) k)
         \/ length (CameraLifecycle.streams (snd pg)) <= k)
  /\ CameraComponent.error (snd (session (client granted))) = None
  /\ CameraComponent.wsRef (snd (client granted))
     = Some {| CameraComponent.readyState := CameraComponent.CONNECTING;
               CameraComponent.sent := [] |}
  /\ fst granted = fst pg.
Proof.
  destruct pg as [a m]. intros granted. unfold client in Hvideo. cbn [snd] in Hvideo.
  destruct (initializeCamera_streams (Some stream) (a, m)) as [Hs Hsrc].
  cbn zeta in Hs, Hsrc. cbn [snd] in Hs, Hsrc. rewrite Hvideo in Hsrc.
  fold granted in Hs, Hsrc.
  assert (Hlen : length (streamsAfterStop m) = length (CameraLifecycle.streams m)).
  { unfold streamsAfterStop. rewrite Hvideo.
    destruct (CameraLifecycle.srcObject m); [apply stopStreamAt_length | reflexivity]. }
  cbn [snd fst]. rewrite Hs, Hsrc, Hlen.
  split; [reflexivity |]. split; [reflexivity |].
  split.
  { rewrite nth_error_app2 by (rewrite Hlen; apply le_n).
    rewrite Hlen, Nat.sub_diag. reflexivity. }
  split.
  { intros k Hk.
    destruct (Nat.lt_ge_cases k (length (CameraLifecycle.streams m))) as [Hlt | Hge];
      [left | right; exact Hge].
    rewrite nth_error_app1 by (rewrite Hlen; exact Hlt).
    unfold streamsAfterStop. rewrite Hvideo, Hk. apply stopStreamAt_nth. }
  subst granted. unfold Wired.initializeCamera. unfold_lifecycle.
  unfold client, session. cbn [fst snd].
  destruct (stopStream_streams m) as [_ [_ Hv]].
  cbn [CameraLifecycle.instance CameraLifecycle.withStreams]. rewrite Hv, Hvideo.
  match goal with
  | |- context [CameraLifecycle.initializeWebSocket ?x] =>
      destruct (initializeWebSocket_instance x) as [_ [_ Hw]]
  end.
  cbn [CameraLifecycle.withInstance CameraLifecycle.instance CameraComponent.setError
       CameraComponent.withState CameraComponent.state CameraComponent.error
       CameraComponent.wsRef].
  rewrite Hw. repeat split; reflexivity.
Qed.

Lemma camera_granted_witness :
  CameraComponent.videoRef (snd (client sample_page))
  = Some {| CameraComponent.paused := false; CameraComponent.ended := false;
            CameraComponent.videoWidth := 640; CameraComponent.videoHeight := 480;
            CameraComponent.currentFrame := [] |}
  /\ CameraLifecycle.streams (snd (Wired.initializeCamera (Some [true; true]) sample_page))
     = [[false]; [true; true]]
  /\ CameraLifecycle.srcObject (snd (Wired.initializeCamera (Some [true; true]) sample_page))
     = Some 1.
Proof.
  split; [reflexivity |].
  pose proof (camera_granted [true; true] sample_page _ eq_refl) as H.
  split; [exact (proj1 H) | exact (proj1 (proj2 H))].
Defined.
